(** * ADC joystick kscan driver: the signal-to-event decision engine

    A shallow embedding of [drivers/kscan/kscan_adc_joystick.c]: the axis
    quantizer [axis_from_sample], the change emitter [emit_changes], one scan
    cycle [kscan_adc_joystick_scan], the work handler
    [kscan_adc_joystick_work] and the configure/enable/disable entry points.

    Machine integers are mathematical integers ([Z]) with the conversions of
    the C source written out.  The Zephyr services the driver calls (ADC
    reads, GPIO reads, the delayable work item, the registered callback) are
    modelled by what they return in one cycle and by the trace of calls the
    driver makes. *)

From Stdlib Require Import ZArith List Bool Lia Sorted.
Import ListNotations.
Local Open Scope Z_scope.

(** ** Machine integers *)

Definition wrap_unsigned (w z : Z) : Z := z mod 2 ^ w.
Definition wrap_signed (w z : Z) : Z := (z + 2 ^ (w - 1)) mod 2 ^ w - 2 ^ (w - 1).

Definition uint8 : Z -> Z := wrap_unsigned 8.
Definition uint32 : Z -> Z := wrap_unsigned 32.
Definition int8 : Z -> Z := wrap_signed 8.
Definition int16 : Z -> Z := wrap_signed 16.
Definition int32 : Z -> Z := wrap_signed 32.

Definition in_uint8 (z : Z) : bool := (0 <=? z) && (z <? 256).
Definition in_uint16 (z : Z) : bool := (0 <=? z) && (z <? 65536).

(** [BIT(n)] of Zephyr's [sys/util.h] is [1UL << n].  The shift is exact for
    every column below the width of [unsigned long]; the driver's build
    assertions keep every column it shifts by below 32. *)
Definition BIT (n : Z) : Z := Z.shiftl 1 n.

(** [for (uint8_t i = 0; i < n; i++) body]: the bound is itself a [uint8_t],
    so the counter never wraps and the loop runs [n] times. *)
Fixpoint for_loop {St : Type} (n : nat) (i : Z) (body : Z -> St -> St) (s : St) : St :=
  match n with
  | O => s
  | S n' => for_loop n' (i + 1) body (body i s)
  end.

(** ** Constants and records of the driver *)

Definition JOYSTICK_COLUMNS : Z := 4.
Definition JOY_COL_UP : Z := 0.
Definition JOY_COL_DOWN : Z := 1.
Definition JOY_COL_LEFT : Z := 2.
Definition JOY_COL_RIGHT : Z := 3.

(** [EINVAL] of the C library's [errno.h]. *)
Definition EINVAL : Z := 22.

(** [struct kscan_adc_joystick_config] without its hardware handles
    ([adc_x], [adc_y], [buttons]), which are the keys of [hw_cycle] below. *)
Record kscan_adc_joystick_config : Type := mk_config {
  button_count : Z;          (* uint8_t *)
  button_column_offset : Z;  (* uint8_t *)
  poll_period_ms : Z;        (* uint16_t *)
  center : Z;                (* uint16_t *)
  deadzone : Z;              (* uint16_t *)
  hysteresis : Z;            (* uint16_t *)
  invert_x : bool;
  invert_y : bool
}.

(** The field types of the C struct. *)
Definition cfg_typed (cfg : kscan_adc_joystick_config) : bool :=
  in_uint8 (button_count cfg) && in_uint8 (button_column_offset cfg) &&
  in_uint16 (poll_period_ms cfg) && in_uint16 (center cfg) &&
  in_uint16 (deadzone cfg) && in_uint16 (hysteresis cfg).

(** The two [BUILD_ASSERT]s of [KSCAN_ADC_JOYSTICK_INIT]. *)
Definition cfg_layout (cfg : kscan_adc_joystick_config) : bool :=
  (button_column_offset cfg + button_count cfg <=? 32) &&
  (JOYSTICK_COLUMNS <=? button_column_offset cfg).

Definition cfg_ok (cfg : kscan_adc_joystick_config) : bool :=
  cfg_typed cfg && cfg_layout cfg.

(** A registered callback is a function pointer; [None] is [NULL]. *)
Definition kscan_callback_t : Type := N.

(** One invocation [callback(dev, row, column, pressed)]. *)
Record kscan_call : Type := mk_call {
  call_target : kscan_callback_t;
  call_row : Z;
  call_column : Z;
  call_pressed : bool
}.

(** [struct kscan_adc_joystick_data] without [dev] and the work item. *)
Record kscan_adc_joystick_data : Type := mk_data {
  callback : option kscan_callback_t;
  state_mask : Z;  (* uint32_t *)
  axis_x : Z;      (* int8_t *)
  axis_y : Z;      (* int8_t *)
  enabled : bool
}.

(** What the ADC driver does for one channel in one cycle: the return codes
    of [adc_sequence_init_dt] and [adc_read_dt], and the 16-bit word the
    read leaves in the sequence buffer. *)
Record adc_outcome : Type := mk_adc {
  sequence_init_ret : Z;
  read_ret : Z;
  buffer_word : Z
}.

(** The hardware as one scan cycle sees it. *)
Record hw_cycle : Type := mk_hw {
  adc_x : adc_outcome;
  adc_y : adc_outcome;
  gpio_pin_get_dt : Z -> Z  (* by button index *)
}.

(** The three values the driver stores in [axis_x] and [axis_y]. *)
Definition AXIS_NEGATIVE : Z := -1.
Definition AXIS_NEUTRAL : Z := 0.
Definition AXIS_POSITIVE : Z := 1.

(** ** Sampling helpers *)

Definition gpio_is_pressed (value : Z) : bool :=
  if value <? 0 then false else value >? 0.

(** Returns [(ret, *out_raw)]. *)
Definition adc_read_raw (spec : adc_outcome) (out_raw : Z) : Z * Z :=
  let ret := sequence_init_ret spec in
  if ret <? 0 then (ret, out_raw)
  else
    let ret := read_ret spec in
    if ret <? 0 then (ret, out_raw)
    else (0, int16 (buffer_word spec)).

(** ** Axis quantizer *)

Definition low_on (cfg : kscan_adc_joystick_config) : Z :=
  int32 (center cfg - int32 (deadzone cfg + hysteresis cfg)).
Definition low_off (cfg : kscan_adc_joystick_config) : Z :=
  int32 (center cfg - int32 (deadzone cfg - hysteresis cfg)).
Definition high_on (cfg : kscan_adc_joystick_config) : Z :=
  int32 (center cfg + int32 (deadzone cfg + hysteresis cfg)).
Definition high_off (cfg : kscan_adc_joystick_config) : Z :=
  int32 (center cfg + int32 (deadzone cfg - hysteresis cfg)).

Definition axis_from_sample (sample prev_axis : Z)
    (cfg : kscan_adc_joystick_config) : Z :=
  if prev_axis <? 0 then (if sample <? low_off cfg then -1 else 0)
  else if prev_axis >? 0 then (if sample >? high_off cfg then 1 else 0)
  else if sample <? low_on cfg then -1
  else if sample >? high_on cfg then 1
  else 0.

(** ** Change emitter *)

(** The calls [emit_changes] makes, in order. *)
Definition emit_changes (data : kscan_adc_joystick_data)
    (old_mask new_mask max_cols : Z) : list kscan_call :=
  let changed := Z.lxor old_mask new_mask in
  match callback data with
  | None => []
  | Some cb =>
      if changed =? 0 then []
      else
        for_loop (Z.to_nat max_cols) 0
          (fun col calls =>
             if Z.land changed (BIT col) =? 0 then calls
             else
               let pressed := negb (Z.land new_mask (BIT col) =? 0) in
               calls ++ [mk_call cb 0 col pressed])
          []
  end.

(** ** Scan cycle *)

(** The column mask a cycle builds from the two axis values it holds after
    inversion and from the buttons (the body of [kscan_adc_joystick_scan]
    between the inversion and the call of [emit_changes]). *)
Definition column_state_mask (cfg : kscan_adc_joystick_config) (hw : hw_cycle)
    (axis_x axis_y : Z) : Z :=
  let state_mask := 0 in
  let state_mask :=
    if axis_y <? 0 then uint32 (Z.lor state_mask (BIT JOY_COL_UP))
    else if axis_y >? 0 then uint32 (Z.lor state_mask (BIT JOY_COL_DOWN))
    else state_mask in
  let state_mask :=
    if axis_x <? 0 then uint32 (Z.lor state_mask (BIT JOY_COL_LEFT))
    else if axis_x >? 0 then uint32 (Z.lor state_mask (BIT JOY_COL_RIGHT))
    else state_mask in
  for_loop (Z.to_nat (button_count cfg)) 0
    (fun i state_mask =>
       if gpio_is_pressed (gpio_pin_get_dt hw i)
       then uint32 (Z.lor state_mask (BIT (button_column_offset cfg + i)))
       else state_mask)
    state_mask.

(** Returns the return code, the driver data after the cycle and the
    callback invocations of the cycle. *)
Definition kscan_adc_joystick_scan (cfg : kscan_adc_joystick_config)
    (hw : hw_cycle) (data : kscan_adc_joystick_data)
    : Z * kscan_adc_joystick_data * list kscan_call :=
  let x_raw := 0 in
  let y_raw := 0 in
  let '(ret, x_raw) := adc_read_raw (adc_x hw) x_raw in
  if ret <? 0 then (ret, data, [])
  else
    let '(ret, y_raw) := adc_read_raw (adc_y hw) y_raw in
    if ret <? 0 then (ret, data, [])
    else
      let axis_x' := axis_from_sample x_raw (axis_x data) cfg in
      let axis_y' := axis_from_sample y_raw (axis_y data) cfg in
      let axis_x' := if invert_x cfg then int8 (- axis_x') else axis_x' in
      let axis_y' := if invert_y cfg then int8 (- axis_y') else axis_y' in
      let state_mask' := column_state_mask cfg hw axis_x' axis_y' in
      let calls :=
        emit_changes data (state_mask data) state_mask'
          (uint8 (button_column_offset cfg + button_count cfg)) in
      (0,
       mk_data (callback data) state_mask' axis_x' axis_y' (enabled data),
       calls).

(** ** Work handler and driver API *)

(** Requests the driver makes to the kernel's delayable work item. *)
Inductive work_request : Type :=
| k_work_reschedule (delay_ms : Z)
| k_work_cancel_delayable.

Definition kscan_adc_joystick_work (cfg : kscan_adc_joystick_config)
    (hw : hw_cycle) (data : kscan_adc_joystick_data)
    : kscan_adc_joystick_data * list kscan_call * list work_request :=
  let '(_, data, calls) := kscan_adc_joystick_scan cfg hw data in
  (data, calls,
   if enabled data then [k_work_reschedule (poll_period_ms cfg)] else []).

Definition kscan_adc_joystick_configure (data : kscan_adc_joystick_data)
    (cb : option kscan_callback_t) : Z * kscan_adc_joystick_data :=
  match cb with
  | None => (- EINVAL, data)
  | Some f =>
      (0, mk_data (Some f) (state_mask data) (axis_x data) (axis_y data)
            (enabled data))
  end.

(** [K_NO_WAIT] is a delay of zero. *)
Definition kscan_adc_joystick_enable (data : kscan_adc_joystick_data)
    : kscan_adc_joystick_data * list work_request :=
  (mk_data (callback data) (state_mask data) (axis_x data) (axis_y data) true,
   [k_work_reschedule 0]).

Definition kscan_adc_joystick_disable (data : kscan_adc_joystick_data)
    : kscan_adc_joystick_data * list work_request :=
  (mk_data (callback data) (state_mask data) (axis_x data) (axis_y data) false,
   [k_work_cancel_delayable]).

(** The driver data as [kscan_adc_joystick_init] leaves it: the stores are
    made before any readiness check of the function. *)
Definition init_data : kscan_adc_joystick_data :=
  mk_data None 0 0 0 false.

(** Successive invocations of the work handler, one per element of [hws];
    returns the data after the last one and the calls of each cycle. *)
Fixpoint run_work (cfg : kscan_adc_joystick_config) (hws : list hw_cycle)
    (data : kscan_adc_joystick_data)
    : kscan_adc_joystick_data * list (list kscan_call) :=
  match hws with
  | [] => (data, [])
  | hw :: rest =>
      let '(data', calls, _) := kscan_adc_joystick_work cfg hw data in
      let '(data'', later) := run_work cfg rest data' in
      (data'', calls :: later)
  end.

(** The quantizer iterated over a sequence of samples of one axis, each
    result being the previous state of the next step; returns the states
    after each sample.  These are the states the driver stores when the
    axis is not inverted. *)
Fixpoint axis_states (cfg : kscan_adc_joystick_config) (prev_axis : Z)
    (samples : list Z) : list Z :=
  match samples with
  | [] => []
  | s :: rest =>
      let a := axis_from_sample s prev_axis cfg in
      a :: axis_states cfg a rest
  end.

(** ** Initialization *)

(** [ENODEV] of the C library's [errno.h]. *)
Definition ENODEV : Z := 19.

(** What the hardware answers while the driver initializes: the results of
    [adc_is_ready_dt] and [adc_channel_setup_dt] for the two channels, and of
    [device_is_ready] and [gpio_pin_configure_dt] for each button, by button
    index. *)
Record hw_init : Type := mk_hw_init {
  adc_x_ready : bool;
  adc_y_ready : bool;
  adc_x_setup_ret : Z;
  adc_y_setup_ret : Z;
  button_port_ready : Z -> bool;
  button_configure_ret : Z -> Z
}.

(** The button loop of [kscan_adc_joystick_init], [n] buttons from index
    [i] on: [Some ret] when the loop returns [ret] from the function, [None]
    when it runs to its end. *)
Fixpoint init_buttons (hw : hw_init) (n : nat) (i : Z) : option Z :=
  match n with
  | O => None
  | S n' =>
      if negb (button_port_ready hw i) then Some (- ENODEV)
      else
        let ret := button_configure_ret hw i in
        if ret <? 0 then Some ret
        else init_buttons hw n' (i + 1)
  end.

(** Returns the return code and the driver data.  The work item the
    function initializes is not part of the data. *)
Definition kscan_adc_joystick_init (cfg : kscan_adc_joystick_config)
    (hw : hw_init) (data : kscan_adc_joystick_data)
    : Z * kscan_adc_joystick_data :=
  let data := mk_data None 0 0 0 false in
  if negb (adc_x_ready hw) then (- ENODEV, data)
  else if negb (adc_y_ready hw) then (- ENODEV, data)
  else
    let ret := adc_x_setup_ret hw in
    if ret <? 0 then (ret, data)
    else
      let ret := adc_y_setup_ret hw in
      if ret <? 0 then (ret, data)
      else
        match init_buttons hw (Z.to_nat (button_count cfg)) 0 with
        | Some ret => (ret, data)
        | None => (0, data)
        end.

(** ** Auxiliary notions used to state the properties *)

(** The values [i, i+1, ..., i+n-1] a loop counter takes. *)
Fixpoint columns_from (n : nat) (i : Z) : list Z :=
  match n with
  | O => []
  | S n' => i :: columns_from n' (i + 1)
  end.

(** [adc_read_raw] on this channel does not return a negative code. *)
Definition adc_succeeds (spec : adc_outcome) : bool :=
  negb (fst (adc_read_raw spec 0) <? 0).

(** The hardware [hw] with the GPIO read of button [i] returning [value]. *)
Definition with_button (hw : hw_cycle) (i value : Z) : hw_cycle :=
  mk_hw (adc_x hw) (adc_y hw)
    (fun j => if j =? i then value else gpio_pin_get_dt hw j).

(** What the scan does to an axis value after quantizing it. *)
Definition apply_invert (invert : bool) (axis : Z) : Z :=
  if invert then int8 (- axis) else axis.

(** The mask a listener keeps from the calls it receives: the bit of the
    column is set by a call with [pressed] and cleared by one without. *)
Definition apply_call (mask : Z) (call : kscan_call) : Z :=
  if call_pressed call then Z.setbit mask (call_column call)
  else Z.clearbit mask (call_column call).

Definition apply_calls (mask : Z) (calls : list kscan_call) : Z :=
  fold_left apply_call calls mask.

(** The stored mask has no bit outside the columns of the configuration and
    the stored axis values are among the three the quantizer returns. *)
Definition is_axis (a : Z) : bool := (a =? -1) || (a =? 0) || (a =? 1).

Definition data_ok (cfg : kscan_adc_joystick_config)
    (data : kscan_adc_joystick_data) : bool :=
  (0 <=? state_mask data)
  && (state_mask data <? 2 ^ (button_column_offset cfg + button_count cfg))
  && is_axis (axis_x data) && is_axis (axis_y data).

(** The hardware of an initialization in which every check passes. *)
Definition hw_init_ok : hw_init :=
  mk_hw_init true true 0 0 (fun _ => true) (fun _ => 0).

(** ** Concrete configurations and inputs used in examples *)

Definition cfg_example : kscan_adc_joystick_config :=
  mk_config 2 4 10 2048 200 50 false false.

Definition cfg_inverted : kscan_adc_joystick_config :=
  mk_config 2 4 10 2048 200 50 true false.

Definition adc_ok (raw : Z) : adc_outcome := mk_adc 0 0 raw.
Definition adc_fail (err : Z) : adc_outcome := mk_adc 0 err 0.

Definition hw_example (x y : adc_outcome) (b0 b1 : Z) : hw_cycle :=
  mk_hw x y (fun i => if i =? 0 then b0 else if i =? 1 then b1 else 0).

(** * Properties *)

(** ** Machine integers and configuration ranges *)

Ltac bool_to_prop :=
  repeat match goal with
    | H : _ && _ = true |- _ => apply andb_true_iff in H; destruct H
    | H : (_ <=? _) = true |- _ => apply Z.leb_le in H
    | H : (_ <? _) = true |- _ => apply Z.ltb_lt in H
    | H : (_ >? _) = true |- _ => rewrite Z.gtb_ltb in H; apply Z.ltb_lt in H
    | H : (_ <? _) = false |- _ => apply Z.ltb_ge in H
    | H : (_ >? _) = false |- _ => rewrite Z.gtb_ltb in H; apply Z.ltb_ge in H
    | H : (_ =? _) = true |- _ => apply Z.eqb_eq in H
    | H : (_ =? _) = false |- _ => apply Z.eqb_neq in H
    end.

Lemma int32_small (z : Z) :
  -2147483648 <= z < 2147483648 -> int32 z = z.
Proof.
  intros Hz. unfold int32, wrap_signed.
  change (2 ^ (32 - 1)) with 2147483648. change (2 ^ 32) with 4294967296.
  rewrite Z.mod_small by lia. lia.
Qed.

Lemma uint8_small (z : Z) : 0 <= z < 256 -> uint8 z = z.
Proof.
  intros Hz. unfold uint8, wrap_unsigned. change (2 ^ 8) with 256.
  apply Z.mod_small; lia.
Qed.

Lemma cfg_typed_thresholds (cfg : kscan_adc_joystick_config) :
  cfg_typed cfg = true ->
  0 <= center cfg < 65536 /\ 0 <= deadzone cfg < 65536 /\
  0 <= hysteresis cfg < 65536.
Proof.
  unfold cfg_typed, in_uint8, in_uint16. intros H. bool_to_prop. lia.
Qed.

Lemma cfg_typed_columns (cfg : kscan_adc_joystick_config) :
  cfg_typed cfg = true ->
  0 <= button_count cfg < 256 /\ 0 <= button_column_offset cfg < 256.
Proof.
  unfold cfg_typed, in_uint8, in_uint16. intros H. bool_to_prop. lia.
Qed.

Lemma cfg_layout_columns (cfg : kscan_adc_joystick_config) :
  cfg_layout cfg = true ->
  button_column_offset cfg + button_count cfg <= 32 /\
  4 <= button_column_offset cfg.
Proof.
  unfold cfg_layout, JOYSTICK_COLUMNS. intros H. bool_to_prop. lia.
Qed.

(** The four thresholds are computed without overflow. *)
Lemma thresholds_exact (cfg : kscan_adc_joystick_config) :
  cfg_typed cfg = true ->
  low_on cfg = center cfg - (deadzone cfg + hysteresis cfg) /\
  low_off cfg = center cfg - (deadzone cfg - hysteresis cfg) /\
  high_on cfg = center cfg + (deadzone cfg + hysteresis cfg) /\
  high_off cfg = center cfg + (deadzone cfg - hysteresis cfg).
Proof.
  intros H. apply cfg_typed_thresholds in H.
  unfold low_on, low_off, high_on, high_off.
  rewrite !(int32_small (deadzone cfg + hysteresis cfg)) by lia.
  rewrite !(int32_small (deadzone cfg - hysteresis cfg)) by lia.
  rewrite !int32_small by lia. repeat split; reflexivity.
Qed.

(** The quantizer only ever returns one of the three axis values. *)
Lemma axis_from_sample_range (cfg : kscan_adc_joystick_config) (s prev : Z) :
  axis_from_sample s prev cfg = AXIS_NEGATIVE \/
  axis_from_sample s prev cfg = AXIS_NEUTRAL \/
  axis_from_sample s prev cfg = AXIS_POSITIVE.
Proof.
  unfold axis_from_sample, AXIS_NEGATIVE, AXIS_NEUTRAL, AXIS_POSITIVE.
  repeat match goal with |- context [if ?b then _ else _] => destruct b end;
    auto.
Qed.

Ltac axis_cases :=
  unfold axis_from_sample, AXIS_NEGATIVE, AXIS_NEUTRAL, AXIS_POSITIVE;
  repeat match goal with
    | |- context [if ?b then _ else _] => destruct b eqn:?
    end;
  bool_to_prop.

(** ** Axis quantizer *)

(** C1. From the Neutral state the quantizer returns Negative exactly when
    the sample is below [center - deadzone - hysteresis], Positive exactly
    when it is above [center + deadzone + hysteresis], and Neutral in every
    other case. *)
Theorem axis_from_sample_neutral (cfg : kscan_adc_joystick_config) (s : Z) :
  cfg_typed cfg = true ->
  (axis_from_sample s AXIS_NEUTRAL cfg = AXIS_NEGATIVE <->
     s < center cfg - deadzone cfg - hysteresis cfg) /\
  (axis_from_sample s AXIS_NEUTRAL cfg = AXIS_POSITIVE <->
     s > center cfg + deadzone cfg + hysteresis cfg) /\
  (axis_from_sample s AXIS_NEUTRAL cfg = AXIS_NEUTRAL <->
     ~ s < center cfg - deadzone cfg - hysteresis cfg /\
     ~ s > center cfg + deadzone cfg + hysteresis cfg).
Proof.
  intros Hcfg.
  destruct (thresholds_exact cfg Hcfg) as (Hlo & _ & Hhi & _).
  pose proof (cfg_typed_thresholds cfg Hcfg) as Hr.
  axis_cases; rewrite ?Hlo, ?Hhi in *; repeat split; intros; lia.
Qed.

Lemma axis_from_sample_neutral_witness :
  (axis_from_sample 1700 AXIS_NEUTRAL cfg_example = AXIS_NEGATIVE <->
     1700 < center cfg_example - deadzone cfg_example - hysteresis cfg_example) /\
  (axis_from_sample 1700 AXIS_NEUTRAL cfg_example = AXIS_POSITIVE <->
     1700 > center cfg_example + deadzone cfg_example + hysteresis cfg_example) /\
  (axis_from_sample 1700 AXIS_NEUTRAL cfg_example = AXIS_NEUTRAL <->
     ~ 1700 < center cfg_example - deadzone cfg_example - hysteresis cfg_example /\
     ~ 1700 > center cfg_example + deadzone cfg_example + hysteresis cfg_example).
Proof.
  apply (axis_from_sample_neutral cfg_example 1700). reflexivity.
Defined.

(** C2. From the Negative state the quantizer returns Negative exactly when
    the sample is below [lowOff = center - (deadzone - hysteresis)] and
    Neutral otherwise; from the Positive state it returns Positive exactly
    when the sample is above [highOff = center + (deadzone - hysteresis)]
    and Neutral otherwise. *)
Theorem axis_from_sample_engaged (cfg : kscan_adc_joystick_config) (s : Z) :
  cfg_typed cfg = true ->
  (axis_from_sample s AXIS_NEGATIVE cfg = AXIS_NEGATIVE <->
     s < center cfg - (deadzone cfg - hysteresis cfg)) /\
  (axis_from_sample s AXIS_NEGATIVE cfg = AXIS_NEUTRAL <->
     ~ s < center cfg - (deadzone cfg - hysteresis cfg)) /\
  (axis_from_sample s AXIS_POSITIVE cfg = AXIS_POSITIVE <->
     s > center cfg + (deadzone cfg - hysteresis cfg)) /\
  (axis_from_sample s AXIS_POSITIVE cfg = AXIS_NEUTRAL <->
     ~ s > center cfg + (deadzone cfg - hysteresis cfg)).
Proof.
  intros Hcfg.
  destruct (thresholds_exact cfg Hcfg) as (_ & Hlo & _ & Hhi).
  axis_cases; rewrite ?Hlo, ?Hhi in *; repeat split; intros; lia.
Qed.

Lemma axis_from_sample_engaged_witness :
  (axis_from_sample 1850 AXIS_NEGATIVE cfg_example = AXIS_NEGATIVE <->
     1850 < center cfg_example - (deadzone cfg_example - hysteresis cfg_example)) /\
  (axis_from_sample 1850 AXIS_NEGATIVE cfg_example = AXIS_NEUTRAL <->
     ~ 1850 < center cfg_example - (deadzone cfg_example - hysteresis cfg_example)) /\
  (axis_from_sample 1850 AXIS_POSITIVE cfg_example = AXIS_POSITIVE <->
     1850 > center cfg_example + (deadzone cfg_example - hysteresis cfg_example)) /\
  (axis_from_sample 1850 AXIS_POSITIVE cfg_example = AXIS_NEUTRAL <->
     ~ 1850 > center cfg_example + (deadzone cfg_example - hysteresis cfg_example)).
Proof.
  apply (axis_from_sample_engaged cfg_example 1850). reflexivity.
Defined.

(** The same two rules for any negative, respectively positive, stored
    value, as the source tests the sign only. *)
Lemma axis_from_sample_sign (cfg : kscan_adc_joystick_config) (s prev : Z) :
  (prev < 0 ->
     axis_from_sample s prev cfg = if s <? low_off cfg then -1 else 0) /\
  (prev > 0 ->
     axis_from_sample s prev cfg = if s >? high_off cfg then 1 else 0).
Proof.
  split; intros Hp; unfold axis_from_sample.
  - destruct (prev <? 0) eqn:E; bool_to_prop; [reflexivity | lia].
  - destruct (prev <? 0) eqn:E; bool_to_prop; [lia |].
    destruct (prev >? 0) eqn:E'; bool_to_prop; [reflexivity | lia].
Qed.

(** The scenario of the specification: centre 2048, dead zone 200,
    hysteresis 50, samples 2048, 1700, 1850, 2048 from Neutral. *)
Example axis_states_scenario :
  axis_states cfg_example AXIS_NEUTRAL [2048; 1700; 1850; 2048]
  = [AXIS_NEUTRAL; AXIS_NEGATIVE; AXIS_NEGATIVE; AXIS_NEUTRAL].
Proof. reflexivity. Qed.

(** Between two successive states of one axis, an engaged direction is
    followed by the same direction or by Neutral; so a run of states that
    starts in one direction and ends in the other holds a Neutral state
    strictly in between. *)
Lemma axis_states_through_neutral (cfg : kscan_adc_joystick_config)
    (samples : list Z) :
  forall (prev : Z) (i j : nat) (a b : Z),
    (i < j)%nat ->
    nth_error (prev :: axis_states cfg prev samples) i = Some a ->
    nth_error (prev :: axis_states cfg prev samples) j = Some b ->
    (a < 0 /\ 0 < b) \/ (0 < a /\ b < 0) ->
    exists k : nat,
      (i < k < j)%nat /\
      nth_error (prev :: axis_states cfg prev samples) k = Some AXIS_NEUTRAL.
Proof.
  induction samples as [| s rest IH]; intros prev i j a b Hij Hi Hj Hab.
  - destruct j as [| j]; [lia |]. simpl in Hj. destruct j; discriminate.
  - destruct j as [| j]; [lia |].
    cbn [axis_states] in *. cbn [nth_error] in Hj.
    set (a1 := axis_from_sample s prev cfg) in *.
    destruct i as [| i].
    + cbn [nth_error] in Hi. injection Hi as <-.
      assert (Hstep : a1 = AXIS_NEUTRAL \/
                      ((a1 < 0 /\ 0 < b) \/ (0 < a1 /\ b < 0))).
      { destruct (axis_from_sample_sign cfg s prev) as [Hn Hp].
        destruct Hab as [[Ha Hb] | [Ha Hb]].
        - subst a1. rewrite (Hn Ha).
          destruct (s <? low_off cfg); [right; left; lia | left; reflexivity].
        - subst a1. rewrite (Hp ltac:(lia)).
          destruct (s >? high_off cfg); [right; right; lia | left; reflexivity]. }
      destruct j as [| j].
      * cbn [nth_error] in Hj. injection Hj as <-.
        unfold AXIS_NEUTRAL in Hstep. lia.
      * destruct Hstep as [H0 | Hflip].
        -- exists 1%nat. split; [lia |]. cbn [nth_error]. now rewrite H0.
        -- destruct (IH a1 0%nat (S j) a1 b ltac:(lia) eq_refl Hj Hflip)
             as (k & Hk & Hnk).
           exists (S k). split; [lia | exact Hnk].
    + cbn [nth_error] in Hi.
      destruct (IH a1 i j a b ltac:(lia) Hi Hj Hab) as (k & Hk & Hnk).
      exists (S k). split; [lia | exact Hnk].
Qed.

(** The quantizer on its own: from Negative it never returns Positive, and
    from Positive it never returns Negative; iterated on its own results
    ([axis_states]), two states of opposite directions have a Neutral state
    strictly between them.  The driver iterates it on the value it stores,
    which is the result after inversion. *)
Lemma axis_no_direct_reversal (cfg : kscan_adc_joystick_config) :
  (forall s : Z, axis_from_sample s AXIS_NEGATIVE cfg <> AXIS_POSITIVE) /\
  (forall s : Z, axis_from_sample s AXIS_POSITIVE cfg <> AXIS_NEGATIVE) /\
  (forall (prev : Z) (samples : list Z) (i j : nat) (a b : Z),
      (i < j)%nat ->
      nth_error (prev :: axis_states cfg prev samples) i = Some a ->
      nth_error (prev :: axis_states cfg prev samples) j = Some b ->
      (a < 0 /\ 0 < b) \/ (0 < a /\ b < 0) ->
      exists k : nat,
        (i < k < j)%nat /\
        nth_error (prev :: axis_states cfg prev samples) k = Some AXIS_NEUTRAL).
Proof.
  split; [| split].
  - intros s. axis_cases; lia.
  - intros s. axis_cases; lia.
  - intros prev samples. apply axis_states_through_neutral.
Qed.

Lemma axis_no_direct_reversal_witness :
  exists k : nat,
    (1 < k < 3)%nat /\
    nth_error
      (AXIS_NEUTRAL :: axis_states cfg_example AXIS_NEUTRAL [1000; 2048; 3000]) k
    = Some AXIS_NEUTRAL.
Proof.
  apply (proj2 (proj2 (axis_no_direct_reversal cfg_example))
           AXIS_NEUTRAL [1000; 2048; 3000] 1%nat 3%nat (-1) 1).
  - lia.
  - reflexivity.
  - reflexivity.
  - left. lia.
Defined.

(** ** Bits *)

Lemma BIT_pow2 (k : Z) : 0 <= k -> BIT k = 2 ^ k.
Proof. intros Hk. unfold BIT. now rewrite Z.shiftl_1_l. Qed.

Lemma testbit_BIT (k c : Z) : 0 <= k -> Z.testbit (BIT k) c = (k =? c).
Proof. intros Hk. rewrite BIT_pow2 by assumption. now apply Z.pow2_bits_eqb. Qed.

(** The C test [(mask & BIT(k)) == 0U] reads bit [k] of [mask]. *)
Lemma land_BIT_eqb (a k : Z) :
  0 <= k -> (Z.land a (BIT k) =? 0) = negb (Z.testbit a k).
Proof.
  intros Hk. destruct (Z.testbit a k) eqn:E; cbn [negb].
  - apply Z.eqb_neq. intros H0.
    assert (Hb : Z.testbit (Z.land a (BIT k)) k = true).
    { rewrite Z.land_spec, E, testbit_BIT, Z.eqb_refl by assumption. reflexivity. }
    rewrite H0, Z.bits_0 in Hb. discriminate.
  - apply Z.eqb_eq. apply Z.bits_inj'. intros n Hn.
    rewrite Z.land_spec, Z.bits_0, testbit_BIT by assumption.
    destruct (k =? n) eqn:Ekn.
    + apply Z.eqb_eq in Ekn. subst n. rewrite E. reflexivity.
    + apply andb_false_r.
Qed.

Lemma testbit_uint32 (x c : Z) :
  Z.testbit (uint32 x) c = (c <? 32) && Z.testbit x c.
Proof.
  unfold uint32, wrap_unsigned.
  destruct (Z.ltb_spec c 32) as [Hlt | Hge]; cbn [andb].
  - destruct (Z.neg_nonneg_cases c) as [Hneg | Hpos].
    + now rewrite !Z.testbit_neg_r.
    + apply Z.mod_pow2_bits_low. lia.
  - apply Z.mod_pow2_bits_high. lia.
Qed.

(** ** Loop counters *)

Lemma in_columns_from (n : nat) :
  forall i c : Z, In c (columns_from n i) <-> i <= c < i + Z.of_nat n.
Proof.
  induction n as [| n IH]; intros i c; cbn [columns_from In].
  - lia.
  - rewrite IH. lia.
Qed.

Lemma columns_from_sorted (n : nat) :
  forall i : Z, StronglySorted Z.lt (columns_from n i).
Proof.
  induction n as [| n IH]; intros i; cbn [columns_from]; constructor.
  - apply IH.
  - apply Forall_forall. intros c Hc. apply in_columns_from in Hc. lia.
Qed.

Lemma filter_sorted {A : Type} (R : A -> A -> Prop) (f : A -> bool) (l : list A) :
  StronglySorted R l -> StronglySorted R (filter f l).
Proof.
  induction 1 as [| x l Hs IH Hx]; cbn [filter]; [constructor |].
  destruct (f x); [| exact IH].
  constructor; [exact IH |].
  rewrite Forall_forall in *. intros y Hy. apply filter_In in Hy. now apply Hx.
Qed.

Lemma for_loop_ext {St : Type} (f g : Z -> St -> St) (n : nat) :
  forall (i : Z) (s : St),
    (forall j t, i <= j < i + Z.of_nat n -> f j t = g j t) ->
    for_loop n i f s = for_loop n i g s.
Proof.
  induction n as [| n IH]; intros i s Hfg; cbn [for_loop]; [reflexivity |].
  rewrite (Hfg i s) by lia. apply IH. intros j t Hj. apply Hfg. lia.
Qed.

(** ** Change emitter *)

(** The calls a registered callback [cb] receives for [max_cols] columns. *)
Lemma emit_loop_calls (cb : kscan_callback_t) (changed new_mask : Z) (n : nat) :
  forall (i : Z) (calls : list kscan_call),
    0 <= i ->
    for_loop n i
      (fun col calls =>
         if Z.land changed (BIT col) =? 0 then calls
         else
           let pressed := negb (Z.land new_mask (BIT col) =? 0) in
           calls ++ [mk_call cb 0 col pressed])
      calls
    = calls ++
      map (fun c => mk_call cb 0 c (Z.testbit new_mask c))
        (filter (fun c => Z.testbit changed c) (columns_from n i)).
Proof.
  induction n as [| n IH]; intros i calls Hi; cbn [for_loop columns_from filter].
  - cbn [map]. now rewrite app_nil_r.
  - rewrite IH by lia. rewrite !land_BIT_eqb by assumption.
    destruct (Z.testbit changed i); cbn [negb map].
    + rewrite negb_involutive, <- app_assoc. reflexivity.
    + reflexivity.
Qed.

Lemma emit_changes_calls (data : kscan_adc_joystick_data)
    (old_mask new_mask max_cols : Z) :
  emit_changes data old_mask new_mask max_cols
  = match callback data with
    | None => []
    | Some cb =>
        map (fun c => mk_call cb 0 c (Z.testbit new_mask c))
          (filter (fun c => Z.testbit (Z.lxor old_mask new_mask) c)
             (columns_from (Z.to_nat max_cols) 0))
    end.
Proof.
  unfold emit_changes. destruct (callback data) as [cb |]; [| reflexivity].
  destruct (Z.lxor old_mask new_mask =? 0) eqn:E.
  - apply Z.eqb_eq in E. rewrite E.
    induction (columns_from (Z.to_nat max_cols) 0) as [| c l IH];
      [reflexivity |].
    cbn [filter]. rewrite Z.bits_0. exact IH.
  - rewrite emit_loop_calls by lia. reflexivity.
Qed.

Lemma sorted_lt_NoDup (l : list Z) : StronglySorted Z.lt l -> NoDup l.
Proof.
  induction 1 as [| x l Hs IH Hx]; constructor; [| exact IH].
  intros Hin. rewrite Forall_forall in Hx. specialize (Hx x Hin). lia.
Qed.

Lemma emit_changes_columns (data : kscan_adc_joystick_data)
    (old_mask new_mask max_cols : Z) :
  map call_column (emit_changes data old_mask new_mask max_cols)
  = match callback data with
    | None => []
    | Some _ =>
        filter (fun c => Z.testbit (Z.lxor old_mask new_mask) c)
          (columns_from (Z.to_nat max_cols) 0)
    end.
Proof.
  rewrite emit_changes_calls. destruct (callback data); [| reflexivity].
  rewrite map_map. cbn [call_column]. apply map_id.
Qed.

(** The calls of the loop, column by column: one for each column below
    [max_cols] whose bit differs, in increasing order. *)
Lemma emit_changes_below_max_cols (data : kscan_adc_joystick_data)
    (old_mask new_mask max_cols : Z) :
  let calls := emit_changes data old_mask new_mask max_cols in
  (callback data = None -> calls = []) /\
  (Z.lxor old_mask new_mask = 0 -> calls = []) /\
  (forall (cb : kscan_callback_t) (call : kscan_call),
      callback data = Some cb ->
      (In call calls <->
       call_target call = cb /\ call_row call = 0 /\
       0 <= call_column call < max_cols /\
       Z.testbit (Z.lxor old_mask new_mask) (call_column call) = true /\
       call_pressed call = Z.testbit new_mask (call_column call))) /\
  (forall (cb : kscan_callback_t) (c : Z),
      callback data = Some cb ->
      count_occ Z.eq_dec (map call_column calls) c
      = if (0 <=? c) && (c <? max_cols)
           && Z.testbit (Z.lxor old_mask new_mask) c
        then 1%nat else 0%nat) /\
  StronglySorted Z.lt (map call_column calls).
Proof.
  cbv zeta.
  assert (Hsorted : StronglySorted Z.lt
            (map call_column (emit_changes data old_mask new_mask max_cols))).
  { rewrite emit_changes_columns. destruct (callback data); [| constructor].
    apply filter_sorted, columns_from_sorted. }
  split; [| split; [| split; [| split]]].
  - intros Hnone. rewrite emit_changes_calls, Hnone. reflexivity.
  - intros Hzero. unfold emit_changes. rewrite Hzero.
    destruct (callback data); reflexivity.
  - intros cb call Hcb. rewrite emit_changes_calls, Hcb. split.
    + intros Hin. apply in_map_iff in Hin. destruct Hin as (c & <- & Hc).
      apply filter_In in Hc. destruct Hc as [Hc Hbit].
      apply in_columns_from in Hc. cbn [call_target call_row call_column call_pressed].
      repeat split; try reflexivity; try assumption; lia.
    + intros (Ht & Hr & Hc & Hbit & Hp).
      apply in_map_iff. exists (call_column call). split.
      * destruct call as [t r c p]; cbn in *. subst. reflexivity.
      * apply filter_In. split; [| exact Hbit].
        apply in_columns_from. lia.
  - intros cb c Hcb.
    pose proof (sorted_lt_NoDup _ Hsorted) as Hnd.
    rewrite (NoDup_count_occ Z.eq_dec) in Hnd. specialize (Hnd c).
    rewrite emit_changes_columns, Hcb in *.
    destruct ((0 <=? c) && (c <? max_cols)
              && Z.testbit (Z.lxor old_mask new_mask) c) eqn:E.
    + assert (Hin : In c (filter (fun c => Z.testbit (Z.lxor old_mask new_mask) c)
                            (columns_from (Z.to_nat max_cols) 0))).
      { bool_to_prop. apply filter_In. split; [| assumption].
        apply in_columns_from. lia. }
      apply (count_occ_In Z.eq_dec) in Hin. lia.
    + apply count_occ_not_In. intros Hin. apply filter_In in Hin.
      destruct Hin as [Hin Hbit]. apply in_columns_from in Hin.
      rewrite Hbit in E.
      assert ((0 <=? c) = true) by (apply Z.leb_le; lia).
      assert ((c <? max_cols) = true) by (apply Z.ltb_lt; lia).
      rewrite H, H0 in E. discriminate.
  - exact Hsorted.
Qed.

Lemma testbit_below_pow2 (m n k : Z) :
  0 <= m < 2 ^ n -> 0 <= n <= k -> Z.testbit m k = false.
Proof.
  intros Hm Hk. rewrite <- (Z.mod_small m (2 ^ n)) by assumption.
  apply Z.mod_pow2_bits_high. assumption.
Qed.

(** A bit that differs between two masks below [2 ^ max_cols] is the bit
    of a column below [max_cols]. *)
Lemma changed_bit_below_max_cols (old_mask new_mask max_cols c : Z) :
  0 <= max_cols ->
  0 <= old_mask < 2 ^ max_cols ->
  0 <= new_mask < 2 ^ max_cols ->
  Z.testbit (Z.lxor old_mask new_mask) c = true ->
  0 <= c < max_cols.
Proof.
  intros Hmax Hold Hnew Hbit.
  destruct (Z.neg_nonneg_cases c) as [Hneg | Hpos].
  - rewrite Z.testbit_neg_r in Hbit by assumption. discriminate.
  - split; [exact Hpos |].
    destruct (Z.lt_ge_cases c max_cols) as [Hlt | Hge]; [exact Hlt |].
    rewrite Z.lxor_spec in Hbit.
    rewrite (testbit_below_pow2 old_mask max_cols c) in Hbit by lia.
    rewrite (testbit_below_pow2 new_mask max_cols c) in Hbit by lia.
    discriminate.
Qed.

(** C4.  For every pair of masks the emitter can be given, that is masks
    with no bit at or above [max_cols], and [max_cols] at most 32 (the
    columns for which [BIT] is defined): with a callback registered,
    [emit_changes] calls it exactly once for each column [c] with bit [c]
    set in [old_mask XOR new_mask], with row 0 and [pressed] equal to bit
    [c] of [new_mask], and for no other column; the calls are in strictly
    increasing column order.  With a zero XOR or no callback registered it
    makes no call. *)
Theorem emit_changes_diff (data : kscan_adc_joystick_data)
    (old_mask new_mask max_cols : Z) :
  0 <= max_cols <= 32 ->
  0 <= old_mask < 2 ^ max_cols ->
  0 <= new_mask < 2 ^ max_cols ->
  let calls := emit_changes data old_mask new_mask max_cols in
  (callback data = None -> calls = []) /\
  (Z.lxor old_mask new_mask = 0 -> calls = []) /\
  (forall (cb : kscan_callback_t) (call : kscan_call),
      callback data = Some cb ->
      (In call calls <->
       call_target call = cb /\ call_row call = 0 /\
       Z.testbit (Z.lxor old_mask new_mask) (call_column call) = true /\
       call_pressed call = Z.testbit new_mask (call_column call))) /\
  (forall (cb : kscan_callback_t) (c : Z),
      callback data = Some cb ->
      count_occ Z.eq_dec (map call_column calls) c
      = if Z.testbit (Z.lxor old_mask new_mask) c then 1%nat else 0%nat) /\
  StronglySorted Z.lt (map call_column calls).
Proof.
  intros Hmax Hold Hnew calls. subst calls.
  destruct (emit_changes_below_max_cols data old_mask new_mask max_cols)
    as (Hnone & Hzero & Hin & Hcount & Hsorted).
  split; [exact Hnone |]. split; [exact Hzero |].
  split; [| split; [| exact Hsorted]].
  - intros cb call Hcb. rewrite (Hin cb call Hcb). split.
    + intros (Ht & Hr & _ & Hbit & Hp). repeat split; assumption.
    + intros (Ht & Hr & Hbit & Hp).
      pose proof (changed_bit_below_max_cols old_mask new_mask max_cols
                    (call_column call) ltac:(lia) Hold Hnew Hbit).
      repeat split; try assumption; lia.
  - intros cb c Hcb. rewrite (Hcount cb c Hcb).
    destruct (Z.testbit (Z.lxor old_mask new_mask) c) eqn:Hbit.
    + pose proof (changed_bit_below_max_cols old_mask new_mask max_cols c
                    ltac:(lia) Hold Hnew Hbit) as Hc.
      assert (E1 : (0 <=? c) = true) by (apply Z.leb_le; lia).
      assert (E2 : (c <? max_cols) = true) by (apply Z.ltb_lt; lia).
      rewrite E1, E2. reflexivity.
    + rewrite andb_false_r. reflexivity.
Qed.

Lemma emit_changes_diff_witness :
  In (mk_call 7%N 0 4 true)
     (emit_changes (mk_data (Some 7%N) 0 0 0 true) 0 48 6).
Proof.
  assert (Hmax : 0 <= 6 <= 32) by lia.
  assert (Hold : 0 <= 0 < 2 ^ 6) by (cbn; lia).
  assert (Hnew : 0 <= 48 < 2 ^ 6) by (cbn; lia).
  apply (proj2 (proj1 (proj2 (proj2
           (emit_changes_diff (mk_data (Some 7%N) 0 0 0 true) 0 48 6
              Hmax Hold Hnew)))
           7%N (mk_call 7%N 0 4 true) eq_refl)).
  cbn. repeat split.
Defined.

(** The scenario of the specification: offset 4, two buttons, both pressed
    on the first cycle from the initial state. *)
Example scan_two_buttons :
  kscan_adc_joystick_scan cfg_example
    (hw_example (adc_ok 2048) (adc_ok 2048) 1 1)
    (mk_data (Some 7%N) 0 0 0 true)
  = (0, mk_data (Some 7%N) 48 0 0 true,
     [mk_call 7%N 0 4 true; mk_call 7%N 0 5 true]).
Proof. reflexivity. Qed.

(** ** Column mask *)

Ltac zbool_cases :=
  repeat match goal with
    | |- context [?a >? ?b] => rewrite (Z.gtb_ltb a b)
    | |- context [?a <? ?b] => destruct (Z.ltb_spec a b); try lia
    | |- context [?a <=? ?b] => destruct (Z.leb_spec a b); try lia
    | |- context [?a =? ?b] => destruct (Z.eqb_spec a b); try lia
    end.

Lemma button_loop_bits (cfg : kscan_adc_joystick_config) (hw : hw_cycle)
    (n : nat) :
  forall (i m c : Z),
    0 <= button_column_offset cfg + i ->
    0 <= c < 32 ->
    Z.testbit
      (for_loop n i
         (fun i state_mask =>
            if gpio_is_pressed (gpio_pin_get_dt hw i)
            then uint32 (Z.lor state_mask (BIT (button_column_offset cfg + i)))
            else state_mask)
         m) c
    = Z.testbit m c
      || ((button_column_offset cfg + i <=? c)
          && (c <? button_column_offset cfg + i + Z.of_nat n)
          && gpio_is_pressed (gpio_pin_get_dt hw (c - button_column_offset cfg))).
Proof.
  induction n as [| n IH]; intros i m c Hi Hc; cbn [for_loop].
  - replace (button_column_offset cfg + i + Z.of_nat 0)
      with (button_column_offset cfg + i) by lia.
    destruct (Z.testbit m c); cbn [orb]; [reflexivity |].
    zbool_cases; try reflexivity; lia.
  - rewrite IH by lia.
    replace (button_column_offset cfg + (i + 1) + Z.of_nat n)
      with (button_column_offset cfg + i + Z.of_nat (S n)) by lia.
    destruct (Z.eq_dec c (button_column_offset cfg + i)) as [-> | Hne].
    + replace (button_column_offset cfg + i - button_column_offset cfg)
        with i by lia.
      destruct (gpio_is_pressed (gpio_pin_get_dt hw i)) eqn:Ep.
      * rewrite testbit_uint32, Z.lor_spec, testbit_BIT, Z.eqb_refl by lia.
        assert (E1 : (button_column_offset cfg + i <? 32) = true)
          by (apply Z.ltb_lt; lia).
        assert (E2 : (button_column_offset cfg + i
                      <=? button_column_offset cfg + i) = true)
          by (apply Z.leb_le; lia).
        assert (E3 : (button_column_offset cfg + i
                      <? button_column_offset cfg + i + Z.of_nat (S n)) = true)
          by (apply Z.ltb_lt; lia).
        rewrite E1, E2, E3.
        destruct (Z.testbit m (button_column_offset cfg + i)); reflexivity.
      * rewrite !andb_false_r. reflexivity.
    + assert (Hbody : Z.testbit
                (if gpio_is_pressed (gpio_pin_get_dt hw i)
                 then uint32 (Z.lor m (BIT (button_column_offset cfg + i)))
                 else m) c = Z.testbit m c).
      { destruct (gpio_is_pressed (gpio_pin_get_dt hw i)); [| reflexivity].
        rewrite testbit_uint32, Z.lor_spec, testbit_BIT by lia.
        replace (c <? 32) with true by (symmetry; apply Z.ltb_lt; lia).
        replace (button_column_offset cfg + i =? c) with false
          by (symmetry; apply Z.eqb_neq; lia).
        cbn [andb]. apply orb_false_r. }
      rewrite Hbody. f_equal. f_equal.
      zbool_cases; try reflexivity; lia.
Qed.

Lemma button_loop_high (cfg : kscan_adc_joystick_config) (hw : hw_cycle)
    (n : nat) :
  forall (i m c : Z),
    32 <= c ->
    Z.testbit m c = false ->
    Z.testbit
      (for_loop n i
         (fun i state_mask =>
            if gpio_is_pressed (gpio_pin_get_dt hw i)
            then uint32 (Z.lor state_mask (BIT (button_column_offset cfg + i)))
            else state_mask)
         m) c
    = false.
Proof.
  induction n as [| n IH]; intros i m c Hc Hm; cbn [for_loop];
    [exact Hm |].
  apply IH; [exact Hc |].
  destruct (gpio_is_pressed (gpio_pin_get_dt hw i)); [| exact Hm].
  rewrite testbit_uint32.
  replace (c <? 32) with false by (symmetry; apply Z.ltb_ge; lia).
  reflexivity.
Qed.

(** Every bit of the column mask of a cycle, for a configuration the build
    assertions accept. *)
Lemma column_state_mask_bits (cfg : kscan_adc_joystick_config) (hw : hw_cycle)
    (ax ay c : Z) :
  cfg_ok cfg = true ->
  Z.testbit (column_state_mask cfg hw ax ay) c
  = (c =? JOY_COL_UP) && (ay <? 0)
    || (c =? JOY_COL_DOWN) && (ay >? 0)
    || (c =? JOY_COL_LEFT) && (ax <? 0)
    || (c =? JOY_COL_RIGHT) && (ax >? 0)
    || (button_column_offset cfg <=? c)
       && (c <? button_column_offset cfg + button_count cfg)
       && gpio_is_pressed (gpio_pin_get_dt hw (c - button_column_offset cfg)).
Proof.
  intros Hok. unfold cfg_ok in Hok. apply andb_true_iff in Hok.
  destruct Hok as [Hty Hlay].
  apply cfg_typed_columns in Hty. apply cfg_layout_columns in Hlay.
  unfold column_state_mask, JOY_COL_UP, JOY_COL_DOWN, JOY_COL_LEFT,
    JOY_COL_RIGHT. cbv zeta.
  set (m0 := if ax <? 0 then _ else _).
  assert (Hm0 : Z.testbit m0 c
                = (c =? 0) && (ay <? 0) || (c =? 1) && (ay >? 0)
                  || (c =? 2) && (ax <? 0) || (c =? 3) && (ax >? 0)).
  { subst m0. rewrite !Z.gtb_ltb.
    destruct (Z.ltb_spec ay 0), (Z.ltb_spec 0 ay), (Z.ltb_spec ax 0),
      (Z.ltb_spec 0 ax); try lia;
      rewrite ?testbit_uint32, ?Z.lor_spec, ?testbit_uint32, ?Z.lor_spec,
        ?testbit_BIT, ?Z.bits_0 by lia;
      zbool_cases; try reflexivity; lia. }
  destruct (Z.neg_nonneg_cases c) as [Hneg | Hpos].
  - rewrite Z.testbit_neg_r by assumption.
    zbool_cases; try reflexivity; lia.
  - destruct (Z.lt_ge_cases c 32) as [Hlt | Hge].
    + rewrite button_loop_bits by lia. rewrite Hm0.
      rewrite Z2Nat.id by lia.
      replace (button_column_offset cfg + 0) with (button_column_offset cfg)
        by lia.
      reflexivity.
    + rewrite button_loop_high.
      * zbool_cases; try reflexivity; lia.
      * exact Hge.
      * rewrite Hm0. zbool_cases; try reflexivity; lia.
Qed.

(** The four direction bits follow the sign of the axis values alone. *)
Lemma column_state_mask_directions (cfg : kscan_adc_joystick_config)
    (hw : hw_cycle) (ax ay : Z) :
  cfg_ok cfg = true ->
  Z.testbit (column_state_mask cfg hw ax ay) JOY_COL_UP = (ay <? 0) /\
  Z.testbit (column_state_mask cfg hw ax ay) JOY_COL_DOWN = (ay >? 0) /\
  Z.testbit (column_state_mask cfg hw ax ay) JOY_COL_LEFT = (ax <? 0) /\
  Z.testbit (column_state_mask cfg hw ax ay) JOY_COL_RIGHT = (ax >? 0).
Proof.
  intros Hok. pose proof Hok as Hok'. unfold cfg_ok in Hok'.
  apply andb_true_iff in Hok'. destruct Hok' as [_ Hlay].
  apply cfg_layout_columns in Hlay.
  rewrite !column_state_mask_bits by assumption.
  unfold JOY_COL_UP, JOY_COL_DOWN, JOY_COL_LEFT, JOY_COL_RIGHT.
  repeat split; zbool_cases; reflexivity.
Qed.

(** The bit of button [i] follows the GPIO read of that button alone. *)
Lemma column_state_mask_button (cfg : kscan_adc_joystick_config)
    (hw : hw_cycle) (ax ay i : Z) :
  cfg_ok cfg = true ->
  0 <= i < button_count cfg ->
  Z.testbit (column_state_mask cfg hw ax ay) (button_column_offset cfg + i)
  = gpio_is_pressed (gpio_pin_get_dt hw i).
Proof.
  intros Hok Hi. pose proof Hok as Hok'. unfold cfg_ok in Hok'.
  apply andb_true_iff in Hok'. destruct Hok' as [_ Hlay].
  apply cfg_layout_columns in Hlay.
  rewrite column_state_mask_bits by assumption.
  unfold JOY_COL_UP, JOY_COL_DOWN, JOY_COL_LEFT, JOY_COL_RIGHT.
  replace (button_column_offset cfg + i - button_column_offset cfg) with i
    by lia.
  zbool_cases; reflexivity.
Qed.

(** C6. The column mask of a cycle never has both UP and DOWN set, never
    has both LEFT and RIGHT set, and is zero in every bit outside columns
    0-3 and the button range [offset, offset + button_count). *)
Theorem column_state_mask_well_formed (cfg : kscan_adc_joystick_config)
    (hw : hw_cycle) (ax ay : Z) :
  cfg_ok cfg = true ->
  let m := column_state_mask cfg hw ax ay in
  ~ (Z.testbit m JOY_COL_UP = true /\ Z.testbit m JOY_COL_DOWN = true) /\
  ~ (Z.testbit m JOY_COL_LEFT = true /\ Z.testbit m JOY_COL_RIGHT = true) /\
  (forall c : Z,
      ~ (0 <= c < JOYSTICK_COLUMNS) ->
      ~ (button_column_offset cfg <= c
         < button_column_offset cfg + button_count cfg) ->
      Z.testbit m c = false).
Proof.
  intros Hok m. subst m.
  destruct (column_state_mask_directions cfg hw ax ay Hok)
    as (Hup & Hdown & Hleft & Hright).
  split; [| split].
  - rewrite Hup, Hdown. intros [H1 H2]. bool_to_prop. lia.
  - rewrite Hleft, Hright. intros [H1 H2]. bool_to_prop. lia.
  - intros c Hc Hb. rewrite column_state_mask_bits by assumption.
    unfold JOY_COL_UP, JOY_COL_DOWN, JOY_COL_LEFT, JOY_COL_RIGHT,
      JOYSTICK_COLUMNS in *.
    zbool_cases; reflexivity.
Qed.

Lemma column_state_mask_well_formed_witness :
  let m := column_state_mask cfg_example
             (hw_example (adc_ok 0) (adc_ok 0) 1 1) (-1) 1 in
  ~ (Z.testbit m JOY_COL_UP = true /\ Z.testbit m JOY_COL_DOWN = true) /\
  ~ (Z.testbit m JOY_COL_LEFT = true /\ Z.testbit m JOY_COL_RIGHT = true) /\
  (forall c : Z,
      ~ (0 <= c < JOYSTICK_COLUMNS) ->
      ~ (button_column_offset cfg_example <= c
         < button_column_offset cfg_example + button_count cfg_example) ->
      Z.testbit m c = false).
Proof.
  apply (column_state_mask_well_formed cfg_example
           (hw_example (adc_ok 0) (adc_ok 0) 1 1) (-1) 1).
  reflexivity.
Defined.

(** ** Scan cycle *)

Lemma adc_read_raw_ok (spec : adc_outcome) (out_raw : Z) :
  adc_succeeds spec = true ->
  adc_read_raw spec out_raw = (0, int16 (buffer_word spec)).
Proof.
  unfold adc_succeeds, adc_read_raw. cbv zeta.
  destruct (sequence_init_ret spec <? 0) eqn:E1; cbn [fst].
  - rewrite E1. discriminate.
  - destruct (read_ret spec <? 0) eqn:E2; cbn [fst].
    + rewrite E2. discriminate.
    + reflexivity.
Qed.

Lemma adc_read_raw_failed (spec : adc_outcome) (out_raw : Z) :
  adc_succeeds spec = false ->
  fst (adc_read_raw spec out_raw) < 0 /\
  fst (adc_read_raw spec out_raw) = fst (adc_read_raw spec 0).
Proof.
  unfold adc_succeeds, adc_read_raw. cbv zeta.
  destruct (sequence_init_ret spec <? 0) eqn:E1; cbn [fst].
  - intros _. bool_to_prop. split; [assumption | reflexivity].
  - destruct (read_ret spec <? 0) eqn:E2; cbn [fst].
    + intros _. bool_to_prop. split; [assumption | reflexivity].
    + cbn. discriminate.
Qed.

(** A cycle whose two ADC reads succeed. *)
Lemma scan_success (cfg : kscan_adc_joystick_config) (hw : hw_cycle)
    (data : kscan_adc_joystick_data) :
  adc_succeeds (adc_x hw) = true ->
  adc_succeeds (adc_y hw) = true ->
  let ax :=
    apply_invert (invert_x cfg)
      (axis_from_sample (int16 (buffer_word (adc_x hw))) (axis_x data) cfg) in
  let ay :=
    apply_invert (invert_y cfg)
      (axis_from_sample (int16 (buffer_word (adc_y hw))) (axis_y data) cfg) in
  kscan_adc_joystick_scan cfg hw data
  = (0,
     mk_data (callback data) (column_state_mask cfg hw ax ay) ax ay
       (enabled data),
     emit_changes data (state_mask data) (column_state_mask cfg hw ax ay)
       (uint8 (button_column_offset cfg + button_count cfg))).
Proof.
  intros Hx Hy. unfold kscan_adc_joystick_scan. cbv zeta.
  rewrite (adc_read_raw_ok _ _ Hx), (adc_read_raw_ok _ _ Hy).
  reflexivity.
Qed.

(** A cycle one of whose ADC reads fails. *)
Lemma scan_failure (cfg : kscan_adc_joystick_config) (hw : hw_cycle)
    (data : kscan_adc_joystick_data) :
  adc_succeeds (adc_x hw) = false \/ adc_succeeds (adc_y hw) = false ->
  kscan_adc_joystick_scan cfg hw data
  = (if adc_succeeds (adc_x hw) then fst (adc_read_raw (adc_y hw) 0)
     else fst (adc_read_raw (adc_x hw) 0),
     data, []) /\
  (if adc_succeeds (adc_x hw) then fst (adc_read_raw (adc_y hw) 0)
   else fst (adc_read_raw (adc_x hw) 0)) < 0.
Proof.
  intros Hfail. unfold kscan_adc_joystick_scan. cbv zeta.
  destruct (adc_succeeds (adc_x hw)) eqn:Hx.
  - destruct Hfail as [Hf | Hy]; [discriminate |].
    rewrite (adc_read_raw_ok _ _ Hx). cbn [Z.ltb Z.compare].
    destruct (adc_read_raw_failed (adc_y hw) 0 Hy) as [Hneg _].
    destruct (adc_read_raw (adc_y hw) 0) as [ret raw]. cbn [fst] in *.
    apply Z.ltb_lt in Hneg. rewrite Hneg.
    split; [reflexivity | now apply Z.ltb_lt].
  - destruct (adc_read_raw_failed (adc_x hw) 0 Hx) as [Hneg _].
    destruct (adc_read_raw (adc_x hw) 0) as [ret raw]. cbn [fst] in *.
    apply Z.ltb_lt in Hneg. rewrite Hneg.
    split; [reflexivity | now apply Z.ltb_lt].
Qed.

(** C5. When the read of either axis fails, the cycle returns the negative
    code of the failing read, calls the callback not at all and leaves the
    driver data as it was; so the next cycle runs on the data recorded
    before the failed one. *)
Theorem scan_failure_keeps_state (cfg : kscan_adc_joystick_config)
    (hw : hw_cycle) (data : kscan_adc_joystick_data) :
  adc_succeeds (adc_x hw) = false \/ adc_succeeds (adc_y hw) = false ->
  let ret :=
    if adc_succeeds (adc_x hw) then fst (adc_read_raw (adc_y hw) 0)
    else fst (adc_read_raw (adc_x hw) 0) in
  ret < 0 /\
  kscan_adc_joystick_scan cfg hw data = (ret, data, []) /\
  (forall hw' : hw_cycle,
      kscan_adc_joystick_scan cfg hw'
        (snd (fst (kscan_adc_joystick_scan cfg hw data)))
      = kscan_adc_joystick_scan cfg hw' data) /\
  (forall hw' : hw_cycle,
      run_work cfg [hw; hw'] data
      = (fst (run_work cfg [hw'] data), [] :: snd (run_work cfg [hw'] data))).
Proof.
  intros Hfail ret. subst ret.
  destruct (scan_failure cfg hw data Hfail) as [Hscan Hneg].
  split; [exact Hneg |]. split; [exact Hscan |]. split.
  - intros hw'. rewrite Hscan. reflexivity.
  - intros hw'. cbn [run_work]. unfold kscan_adc_joystick_work.
    rewrite Hscan.
    destruct (kscan_adc_joystick_scan cfg hw' data) as [[r d] c].
    reflexivity.
Qed.

Lemma scan_failure_keeps_state_witness :
  let cfg := cfg_example in
  let hw := hw_example (adc_fail (-5)) (adc_ok 1000) 1 0 in
  let data := mk_data (Some 7%N) 16 1 0 true in
  let ret :=
    if adc_succeeds (adc_x hw) then fst (adc_read_raw (adc_y hw) 0)
    else fst (adc_read_raw (adc_x hw) 0) in
  ret < 0 /\
  kscan_adc_joystick_scan cfg hw data = (ret, data, []) /\
  (forall hw' : hw_cycle,
      kscan_adc_joystick_scan cfg hw'
        (snd (fst (kscan_adc_joystick_scan cfg hw data)))
      = kscan_adc_joystick_scan cfg hw' data) /\
  (forall hw' : hw_cycle,
      run_work cfg [hw; hw'] data
      = (fst (run_work cfg [hw'] data), [] :: snd (run_work cfg [hw'] data))).
Proof.
  apply (scan_failure_keeps_state cfg_example
           (hw_example (adc_fail (-5)) (adc_ok 1000) 1 0)
           (mk_data (Some 7%N) 16 1 0 true)).
  left. reflexivity.
Defined.

(** The scenario of the specification: the X read fails once, then
    succeeds.  The failed cycle makes no call; the next one reports the
    difference to the mask held before the failed cycle. *)
Example run_work_failed_then_ok :
  run_work cfg_example
    [hw_example (adc_fail (-5)) (adc_ok 2048) 0 0;
     hw_example (adc_ok 1000) (adc_ok 2048) 0 0]
    (mk_data (Some 7%N) 0 0 0 true)
  = (mk_data (Some 7%N) 4 (-1) 0 true,
     [[]; [mk_call 7%N 0 JOY_COL_LEFT true]]).
Proof. reflexivity. Qed.

(** What a successful cycle stores: the quantizer's result after the
    inversion, which is also the value the mask is built from. *)
Lemma scan_stored_axes (cfg : kscan_adc_joystick_config) (hw : hw_cycle)
    (data : kscan_adc_joystick_data) :
  adc_succeeds (adc_x hw) = true ->
  adc_succeeds (adc_y hw) = true ->
  axis_x (snd (fst (kscan_adc_joystick_scan cfg hw data)))
  = apply_invert (invert_x cfg)
      (axis_from_sample (int16 (buffer_word (adc_x hw))) (axis_x data) cfg) /\
  axis_y (snd (fst (kscan_adc_joystick_scan cfg hw data)))
  = apply_invert (invert_y cfg)
      (axis_from_sample (int16 (buffer_word (adc_y hw))) (axis_y data) cfg).
Proof.
  intros Hx Hy. rewrite (scan_success cfg hw data Hx Hy). split; reflexivity.
Qed.

(** Without inversion the stored axis values are the quantizer's results. *)
Lemma scan_stored_axes_plain (cfg : kscan_adc_joystick_config) (hw : hw_cycle)
    (data : kscan_adc_joystick_data) :
  invert_x cfg = false ->
  invert_y cfg = false ->
  adc_succeeds (adc_x hw) = true ->
  adc_succeeds (adc_y hw) = true ->
  axis_x (snd (fst (kscan_adc_joystick_scan cfg hw data)))
  = axis_from_sample (int16 (buffer_word (adc_x hw))) (axis_x data) cfg /\
  axis_y (snd (fst (kscan_adc_joystick_scan cfg hw data)))
  = axis_from_sample (int16 (buffer_word (adc_y hw))) (axis_y data) cfg.
Proof.
  intros Hix Hiy Hx Hy.
  destruct (scan_stored_axes cfg hw data Hx Hy) as [Hax Hay].
  rewrite Hax, Hay, Hix, Hiy. split; reflexivity.
Qed.

(** The inversion of an axis value swaps the two directions. *)
Lemma apply_invert_axis (cfg : kscan_adc_joystick_config) (s prev : Z) :
  apply_invert true (axis_from_sample s prev cfg)
  = - axis_from_sample s prev cfg.
Proof.
  unfold apply_invert.
  destruct (axis_from_sample_range cfg s prev) as [H | [H | H]];
    rewrite H; reflexivity.
Qed.

(** C3 at a concrete input.  With [invert_x] set, centre 2048, dead zone
    200, hysteresis 50, stored state Neutral and the X sample held at 1000:
    the quantizer returns Negative, but the cycle stores Positive, the
    value after inversion.  The stored value is the previous state of the
    next cycle, so over three cycles with the same sample the stored X
    state runs Positive, Neutral, Positive and column RIGHT is reported
    pressed, released, pressed. *)
Theorem scan_stores_inverted_axis :
  let data := mk_data (Some 7%N) 0 0 0 true in
  let hw := hw_example (adc_ok 1000) (adc_ok 2048) 0 0 in
  fst (fst (kscan_adc_joystick_scan cfg_inverted hw data)) = 0 /\
  axis_from_sample 1000 (axis_x data) cfg_inverted = AXIS_NEGATIVE /\
  axis_x (snd (fst (kscan_adc_joystick_scan cfg_inverted hw data)))
  = AXIS_POSITIVE /\
  axis_x (fst (run_work cfg_inverted [hw; hw] data)) = AXIS_NEUTRAL /\
  axis_states cfg_inverted AXIS_NEUTRAL [1000; 1000; 1000]
  = [AXIS_NEGATIVE; AXIS_NEGATIVE; AXIS_NEGATIVE] /\
  snd (run_work cfg_inverted [hw; hw; hw] data)
  = [[mk_call 7%N 0 JOY_COL_RIGHT true];
     [mk_call 7%N 0 JOY_COL_RIGHT false];
     [mk_call 7%N 0 JOY_COL_RIGHT true]].
Proof. cbv zeta. repeat split; reflexivity. Qed.

(** C8 at a concrete input.  With [invert_x] set, centre 2048, dead zone
    200, hysteresis 50 and stored state Neutral, the X samples 3000 and then
    1000: the first cycle stores Negative and reports LEFT pressed; in the
    second the quantizer, given the stored Negative, holds Negative, and
    the cycle stores Positive, its inversion.  The stored state goes from
    Negative to Positive and the columns from LEFT to RIGHT in successive
    cycles, with no Neutral cycle between them. *)
Theorem scan_inverted_reverses_direction :
  let data := mk_data (Some 7%N) 0 0 0 true in
  let hw1 := hw_example (adc_ok 3000) (adc_ok 2048) 0 0 in
  let hw2 := hw_example (adc_ok 1000) (adc_ok 2048) 0 0 in
  let d1 := snd (fst (kscan_adc_joystick_scan cfg_inverted hw1 data)) in
  let d2 := snd (fst (kscan_adc_joystick_scan cfg_inverted hw2 d1)) in
  axis_x d1 = AXIS_NEGATIVE /\
  axis_from_sample 1000 (axis_x d1) cfg_inverted = AXIS_NEGATIVE /\
  axis_x d2 = AXIS_POSITIVE /\
  state_mask d1 = BIT JOY_COL_LEFT /\
  state_mask d2 = BIT JOY_COL_RIGHT /\
  snd (run_work cfg_inverted [hw1; hw2] data)
  = [[mk_call 7%N 0 JOY_COL_LEFT true];
     [mk_call 7%N 0 JOY_COL_LEFT false; mk_call 7%N 0 JOY_COL_RIGHT true]].
Proof. cbv zeta. repeat split; reflexivity. Qed.

(** Without inversion the stored state of an axis is the quantizer's
    result, so a cycle never takes it from one direction to the other:
    after a stored Negative the next stored X value is not Positive, and
    after a stored Positive it is not Negative, whether the reads of the
    cycle succeed or fail. *)
Lemma scan_plain_no_direct_reversal (cfg : kscan_adc_joystick_config)
    (hw : hw_cycle) (data : kscan_adc_joystick_data) :
  invert_x cfg = false ->
  (axis_x data = AXIS_NEGATIVE ->
   axis_x (snd (fst (kscan_adc_joystick_scan cfg hw data)))
   <> AXIS_POSITIVE) /\
  (axis_x data = AXIS_POSITIVE ->
   axis_x (snd (fst (kscan_adc_joystick_scan cfg hw data)))
   <> AXIS_NEGATIVE).
Proof.
  intros Hinv.
  destruct (axis_no_direct_reversal cfg) as (Hneg & Hpos & _).
  destruct (adc_succeeds (adc_x hw)) eqn:Hx;
    [destruct (adc_succeeds (adc_y hw)) eqn:Hy |].
  - destruct (scan_stored_axes cfg hw data Hx Hy) as [-> _].
    rewrite Hinv. unfold apply_invert.
    split; intros ->; [apply Hneg | apply Hpos].
  - destruct (scan_failure cfg hw data (or_intror Hy)) as [-> _].
    cbn [fst snd]. split; intros ->; discriminate.
  - destruct (scan_failure cfg hw data (or_introl Hx)) as [-> _].
    cbn [fst snd]. split; intros ->; discriminate.
Qed.

(** In a session whose stored mask has no bit at or above the column count,
    a successful cycle reports every bit that differs between the stored
    and the new mask. *)
Lemma scan_reports_every_change (cfg : kscan_adc_joystick_config)
    (hw : hw_cycle) (data : kscan_adc_joystick_data) (cb : kscan_callback_t)
    (c : Z) :
  cfg_ok cfg = true ->
  callback data = Some cb ->
  adc_succeeds (adc_x hw) = true ->
  adc_succeeds (adc_y hw) = true ->
  (forall k, button_column_offset cfg + button_count cfg <= k ->
             Z.testbit (state_mask data) k = false) ->
  let r := kscan_adc_joystick_scan cfg hw data in
  Z.testbit (Z.lxor (state_mask data) (state_mask (snd (fst r)))) c = true ->
  In (mk_call cb 0 c (Z.testbit (state_mask (snd (fst r))) c)) (snd r).
Proof.
  intros Hok Hcb Hx Hy Hold r. subst r.
  rewrite (scan_success cfg hw data Hx Hy). cbv zeta. cbn [fst snd state_mask].
  set (m := column_state_mask cfg hw _ _).
  intros Hbit.
  pose proof Hok as Hok'. unfold cfg_ok in Hok'.
  apply andb_true_iff in Hok'. destruct Hok' as [Hty Hlay].
  apply cfg_typed_columns in Hty. apply cfg_layout_columns in Hlay.
  rewrite emit_changes_calls, Hcb. apply in_map_iff. exists c.
  split; [reflexivity |]. apply filter_In. split; [| exact Hbit].
  apply in_columns_from. rewrite uint8_small by lia.
  rewrite Z2Nat.id by lia.
  destruct (Z.neg_nonneg_cases c) as [Hneg | Hpos].
  - rewrite Z.testbit_neg_r in Hbit by assumption. discriminate.
  - destruct (Z.lt_ge_cases c (button_column_offset cfg + button_count cfg))
      as [Hlt | Hge]; [lia |].
    rewrite Z.lxor_spec, (Hold c Hge) in Hbit. cbn [xorb] in Hbit.
    subst m. rewrite column_state_mask_bits in Hbit by assumption.
    unfold JOY_COL_UP, JOY_COL_DOWN, JOY_COL_LEFT, JOY_COL_RIGHT in Hbit.
    revert Hbit. zbool_cases; cbn [andb orb]; discriminate.
Qed.

(** ** Work handler *)

(** C9. After the cycle the work handler runs, whether the cycle succeeded
    or stopped at a failed axis read, the handler requests a reschedule
    after [poll_period_ms] exactly when the session is enabled, and requests
    nothing otherwise; the cycle itself leaves the enabled flag as it was. *)
Theorem work_reschedules_iff_enabled (cfg : kscan_adc_joystick_config)
    (hw : hw_cycle) (data : kscan_adc_joystick_data) :
  snd (kscan_adc_joystick_work cfg hw data)
  = (if enabled (fst (fst (kscan_adc_joystick_work cfg hw data)))
     then [k_work_reschedule (poll_period_ms cfg)] else []) /\
  enabled (fst (fst (kscan_adc_joystick_work cfg hw data))) = enabled data /\
  (In (k_work_reschedule (poll_period_ms cfg))
      (snd (kscan_adc_joystick_work cfg hw data))
   <-> enabled data = true).
Proof.
  unfold kscan_adc_joystick_work.
  assert (Hen : enabled (snd (fst (kscan_adc_joystick_scan cfg hw data)))
                = enabled data).
  { destruct (adc_succeeds (adc_x hw)) eqn:Hx;
      [destruct (adc_succeeds (adc_y hw)) eqn:Hy |].
    - rewrite (scan_success cfg hw data Hx Hy). reflexivity.
    - destruct (scan_failure cfg hw data (or_intror Hy)) as [-> _].
      reflexivity.
    - destruct (scan_failure cfg hw data (or_introl Hx)) as [-> _].
      reflexivity. }
  destruct (kscan_adc_joystick_scan cfg hw data) as [[ret d] calls].
  cbn [fst snd] in *. rewrite Hen.
  split; [reflexivity |]. split; [reflexivity |].
  destruct (enabled data); cbn [In]; split; intros H;
    try reflexivity; try discriminate; try tauto.
Qed.

(** After [disable] the handler requests nothing; after [enable] it
    requests the next cycle, also when the axis read fails. *)
Lemma work_after_disable_enable (cfg : kscan_adc_joystick_config)
    (hw : hw_cycle) (data : kscan_adc_joystick_data) :
  snd (kscan_adc_joystick_work cfg hw
         (fst (kscan_adc_joystick_disable data))) = [] /\
  snd (kscan_adc_joystick_work cfg hw
         (fst (kscan_adc_joystick_enable data)))
  = [k_work_reschedule (poll_period_ms cfg)].
Proof.
  unfold kscan_adc_joystick_work, kscan_adc_joystick_scan. cbv zeta.
  cbn [fst kscan_adc_joystick_disable kscan_adc_joystick_enable].
  destruct (adc_read_raw (adc_x hw) 0) as [rx x].
  destruct (adc_read_raw (adc_y hw) 0) as [ry y].
  destruct (rx <? 0), (ry <? 0); split; reflexivity.
Qed.

(** A session whose X read fails on every cycle keeps being rescheduled
    while enabled, and makes no call. *)
Example work_failing_axis_keeps_polling :
  kscan_adc_joystick_work cfg_example
    (hw_example (adc_fail (-5)) (adc_ok 2048) 1 1)
    (mk_data (Some 7%N) 0 0 0 true)
  = (mk_data (Some 7%N) 0 0 0 true, [], [k_work_reschedule 10]).
Proof. reflexivity. Qed.

(** ** Configure *)

(** A [NULL] callback is refused: [configure] returns [-EINVAL] and the
    callback registered before stays registered, so the next cycle still
    reports to it. *)
Lemma configure_null_is_refused :
  let data := mk_data (Some 7%N) 0 0 0 true in
  let r := kscan_adc_joystick_configure data None in
  fst r = -22 /\
  callback (snd r) = Some 7%N /\
  snd (kscan_adc_joystick_scan cfg_example
         (hw_example (adc_ok 1000) (adc_ok 2048) 0 0) (snd r))
  = [mk_call 7%N 0 JOY_COL_LEFT true].
Proof. cbv zeta. repeat split; reflexivity. Qed.

(** C7, as the code has it.  [configure] refuses an absent callback with
    [-EINVAL] and leaves the driver data untouched.  While no callback is
    registered, as after initialization, a cycle makes no call; a cycle
    whose axis reads succeed still returns 0 and stores the new mask and
    axis values. *)
Theorem configure_null_and_unregistered_scan
    (cfg : kscan_adc_joystick_config) (hw : hw_cycle)
    (data : kscan_adc_joystick_data) :
  callback data = None ->
  adc_succeeds (adc_x hw) = true ->
  adc_succeeds (adc_y hw) = true ->
  let ax :=
    apply_invert (invert_x cfg)
      (axis_from_sample (int16 (buffer_word (adc_x hw))) (axis_x data) cfg) in
  let ay :=
    apply_invert (invert_y cfg)
      (axis_from_sample (int16 (buffer_word (adc_y hw))) (axis_y data) cfg) in
  (forall d : kscan_adc_joystick_data,
      kscan_adc_joystick_configure d None = (- EINVAL, d)) /\
  - EINVAL < 0 /\
  callback init_data = None /\
  kscan_adc_joystick_scan cfg hw data
  = (0,
     mk_data None (column_state_mask cfg hw ax ay) ax ay (enabled data),
     []).
Proof.
  intros Hcb Hx Hy ax ay. subst ax ay.
  split; [intros d; reflexivity |].
  split; [reflexivity |]. split; [reflexivity |].
  rewrite (scan_success cfg hw data Hx Hy). cbv zeta.
  rewrite emit_changes_calls, Hcb. reflexivity.
Qed.

Lemma configure_null_and_unregistered_scan_witness :
  (forall d : kscan_adc_joystick_data,
      kscan_adc_joystick_configure d None = (- EINVAL, d)) /\
  - EINVAL < 0 /\
  callback init_data = None /\
  kscan_adc_joystick_scan cfg_example
    (hw_example (adc_ok 1000) (adc_ok 2048) 1 0) init_data
  = (0, mk_data None 20 (-1) 0 false, []).
Proof.
  apply (configure_null_and_unregistered_scan cfg_example
           (hw_example (adc_ok 1000) (adc_ok 2048) 1 0) init_data);
    reflexivity.
Defined.

(** ** Buttons *)

Lemma gpio_is_pressed_negative (value : Z) :
  value < 0 -> gpio_is_pressed value = false.
Proof.
  intros Hv. unfold gpio_is_pressed.
  destruct (Z.ltb_spec value 0); [reflexivity | lia].
Qed.

(** A failed read of button [i] builds the mask a released button builds. *)
Lemma column_state_mask_failed_button (cfg : kscan_adc_joystick_config)
    (hw : hw_cycle) (ax ay i : Z) :
  gpio_pin_get_dt hw i < 0 ->
  column_state_mask cfg hw ax ay
  = column_state_mask cfg (with_button hw i 0) ax ay.
Proof.
  intros Hneg. unfold column_state_mask. cbv zeta.
  apply for_loop_ext. intros j m _. cbn [gpio_pin_get_dt with_button].
  destruct (Z.eqb_spec j i) as [-> | Hne]; [| reflexivity].
  rewrite (gpio_is_pressed_negative _ Hneg). reflexivity.
Qed.

(** C10. A button whose GPIO read returns an error counts as not pressed:
    the cycle is the cycle of the same hardware with that button released,
    it returns 0 when the two axis reads succeed, and the column bit of the
    button is clear in the stored mask. *)
Theorem scan_failed_button_is_released (cfg : kscan_adc_joystick_config)
    (hw : hw_cycle) (data : kscan_adc_joystick_data) (i : Z) :
  cfg_ok cfg = true ->
  0 <= i < button_count cfg ->
  gpio_pin_get_dt hw i < 0 ->
  adc_succeeds (adc_x hw) = true ->
  adc_succeeds (adc_y hw) = true ->
  gpio_is_pressed (gpio_pin_get_dt hw i) = false /\
  kscan_adc_joystick_scan cfg hw data
  = kscan_adc_joystick_scan cfg (with_button hw i 0) data /\
  fst (fst (kscan_adc_joystick_scan cfg hw data)) = 0 /\
  Z.testbit (state_mask (snd (fst (kscan_adc_joystick_scan cfg hw data))))
    (button_column_offset cfg + i) = false.
Proof.
  intros Hok Hi Hneg Hx Hy.
  pose proof (gpio_is_pressed_negative _ Hneg) as Hrel.
  split; [exact Hrel |]. split; [| split].
  - rewrite (scan_success cfg hw data Hx Hy).
    rewrite (scan_success cfg (with_button hw i 0) data Hx Hy).
    cbv zeta. cbn [adc_x adc_y with_button].
    rewrite <- !(column_state_mask_failed_button cfg hw _ _ i Hneg).
    reflexivity.
  - rewrite (scan_success cfg hw data Hx Hy). reflexivity.
  - rewrite (scan_success cfg hw data Hx Hy). cbv zeta.
    cbn [fst snd state_mask].
    rewrite column_state_mask_button by assumption. exact Hrel.
Qed.

Lemma scan_failed_button_is_released_witness :
  let cfg := cfg_example in
  let hw := hw_example (adc_ok 2048) (adc_ok 2048) (-5) 1 in
  let data := mk_data (Some 7%N) 0 0 0 true in
  gpio_is_pressed (gpio_pin_get_dt hw 0) = false /\
  kscan_adc_joystick_scan cfg hw data
  = kscan_adc_joystick_scan cfg (with_button hw 0 0) data /\
  fst (fst (kscan_adc_joystick_scan cfg hw data)) = 0 /\
  Z.testbit (state_mask (snd (fst (kscan_adc_joystick_scan cfg hw data))))
    (button_column_offset cfg + 0) = false.
Proof.
  apply (scan_failed_button_is_released cfg_example
           (hw_example (adc_ok 2048) (adc_ok 2048) (-5) 1)
           (mk_data (Some 7%N) 0 0 0 true) 0).
  - reflexivity.
  - cbn. lia.
  - cbn. lia.
  - reflexivity.
  - reflexivity.
Defined.

(** A cycle with one failed and one pressed button: only the pressed one
    is reported. *)
Example scan_failed_button :
  kscan_adc_joystick_scan cfg_example
    (hw_example (adc_ok 2048) (adc_ok 2048) (-5) 1)
    (mk_data (Some 7%N) 0 0 0 true)
  = (0, mk_data (Some 7%N) 32 0 0 true, [mk_call 7%N 0 5 true]).
Proof. reflexivity. Qed.

(** * Further properties of the driver *)

(** ** ADC reads *)

(** [adc_read_raw] returns zero or a negative code, never a positive one.
    It returns the code of [adc_sequence_init_dt] when that is negative,
    else the code of [adc_read_dt] when that is negative, and leaves
    [*out_raw] as it was in both cases; otherwise it returns 0 and a sample
    in the range of [int16_t], which is the buffer word when that word is
    in range. *)
Theorem adc_read_raw_result (spec : adc_outcome) (out_raw : Z) :
  fst (adc_read_raw spec out_raw) <= 0 /\
  (fst (adc_read_raw spec out_raw) = 0 <->
     0 <= sequence_init_ret spec /\ 0 <= read_ret spec) /\
  (sequence_init_ret spec < 0 ->
     adc_read_raw spec out_raw = (sequence_init_ret spec, out_raw)) /\
  (0 <= sequence_init_ret spec -> read_ret spec < 0 ->
     adc_read_raw spec out_raw = (read_ret spec, out_raw)) /\
  (fst (adc_read_raw spec out_raw) = 0 ->
     -32768 <= snd (adc_read_raw spec out_raw) <= 32767 /\
     (-32768 <= buffer_word spec <= 32767 ->
        snd (adc_read_raw spec out_raw) = buffer_word spec)).
Proof.
  unfold adc_read_raw. cbv zeta.
  destruct (Z.ltb_spec (sequence_init_ret spec) 0) as [Hi | Hi];
    [| destruct (Z.ltb_spec (read_ret spec) 0) as [Hr | Hr]];
    cbn [fst snd]; repeat split; intros; try lia; try reflexivity.
  - unfold int16, wrap_signed.
    change (2 ^ (16 - 1)) with 32768. change (2 ^ 16) with 65536.
    pose proof (Z.mod_pos_bound (buffer_word spec + 32768) 65536). lia.
  - unfold int16, wrap_signed.
    change (2 ^ (16 - 1)) with 32768. change (2 ^ 16) with 65536.
    pose proof (Z.mod_pos_bound (buffer_word spec + 32768) 65536). lia.
  - unfold int16, wrap_signed.
    change (2 ^ (16 - 1)) with 32768. change (2 ^ 16) with 65536.
    rewrite Z.mod_small by lia. lia.
Qed.

Lemma adc_read_raw_result_witness :
  adc_read_raw (mk_adc 3 (-5) 1234) 77 = (-5, 77).
Proof.
  apply (proj1 (proj2 (proj2 (proj2
           (adc_read_raw_result (mk_adc 3 (-5) 1234) 77))))); cbn; lia.
Defined.

(** ** Axis quantizer under a repeated sample *)

Ltac axis_facts :=
  unfold axis_from_sample in *;
  repeat match goal with
    | H : context [if ?b then _ else _] |- _ => destruct b eqn:?
    | |- context [if ?b then _ else _] => destruct b eqn:?
    end;
  bool_to_prop; try lia; try reflexivity.

Lemma thresholds_ordered (cfg : kscan_adc_joystick_config) :
  cfg_typed cfg = true ->
  low_on cfg <= low_off cfg /\ high_off cfg <= high_on cfg /\
  low_on cfg <= high_on cfg.
Proof.
  intros Hcfg.
  destruct (thresholds_exact cfg Hcfg) as (-> & -> & -> & ->).
  apply cfg_typed_thresholds in Hcfg. lia.
Qed.

Lemma axis_engaged_held (cfg : kscan_adc_joystick_config) (s prev : Z) :
  cfg_typed cfg = true ->
  axis_from_sample s prev cfg <> 0 ->
  axis_from_sample s (axis_from_sample s prev cfg) cfg
  = axis_from_sample s prev cfg.
Proof.
  intros Hcfg Hne.
  destruct (thresholds_ordered cfg Hcfg) as (Hlo & Hhi & _).
  destruct (axis_from_sample_range cfg s prev) as [H | [H | H]];
    unfold AXIS_NEGATIVE, AXIS_NEUTRAL, AXIS_POSITIVE in H;
    rewrite H in *; [| contradiction |].
  - clear Hne.
    assert (Hs : s < low_off cfg) by (revert H; clear -Hlo; axis_facts).
    clear H. unfold axis_from_sample. cbn.
    destruct (Z.ltb_spec s (low_off cfg)); [reflexivity | lia].
  - clear Hne.
    assert (Hs : high_off cfg < s) by (revert H; clear -Hhi; axis_facts).
    clear H. unfold axis_from_sample. cbn. rewrite Z.gtb_ltb.
    destruct (Z.ltb_spec (high_off cfg) s); [reflexivity | lia].
Qed.

(** Two steps under the same sample settle the axis state. *)
Lemma axis_third_step (cfg : kscan_adc_joystick_config) (s prev : Z) :
  cfg_typed cfg = true ->
  axis_from_sample s
    (axis_from_sample s (axis_from_sample s prev cfg) cfg) cfg
  = axis_from_sample s (axis_from_sample s prev cfg) cfg.
Proof.
  intros Hcfg.
  set (a1 := axis_from_sample s prev cfg).
  destruct (Z.eq_dec (axis_from_sample s a1 cfg) 0) as [H2 | H2];
    [| apply axis_engaged_held; assumption].
  destruct (Z.eq_dec a1 0) as [H1 | H1].
  - rewrite H1 in *. rewrite H2. exact H2.
  - pose proof (axis_engaged_held cfg s prev Hcfg H1) as Hheld.
    fold a1 in Hheld. congruence.
Qed.

(** Under a sample that stays the same, an engaged direction is held (the
    hold threshold is never stricter than the trigger threshold), and from
    any stored value the axis state is settled after two steps: a third
    step returns what the second returned. *)
Theorem axis_from_sample_settles (cfg : kscan_adc_joystick_config)
    (s prev : Z) :
  cfg_typed cfg = true ->
  (axis_from_sample s prev cfg <> AXIS_NEUTRAL ->
     axis_from_sample s (axis_from_sample s prev cfg) cfg
     = axis_from_sample s prev cfg) /\
  axis_from_sample s
    (axis_from_sample s (axis_from_sample s prev cfg) cfg) cfg
  = axis_from_sample s (axis_from_sample s prev cfg) cfg.
Proof.
  intros Hcfg. split.
  - intros Hne. apply axis_engaged_held; assumption.
  - apply axis_third_step. exact Hcfg.
Qed.

Lemma axis_from_sample_settles_witness :
  (axis_from_sample 3000 AXIS_NEGATIVE cfg_example <> AXIS_NEUTRAL ->
     axis_from_sample 3000
       (axis_from_sample 3000 AXIS_NEGATIVE cfg_example) cfg_example
     = axis_from_sample 3000 AXIS_NEGATIVE cfg_example) /\
  axis_from_sample 3000
    (axis_from_sample 3000
       (axis_from_sample 3000 AXIS_NEGATIVE cfg_example) cfg_example)
    cfg_example
  = axis_from_sample 3000
      (axis_from_sample 3000 AXIS_NEGATIVE cfg_example) cfg_example.
Proof.
  apply (axis_from_sample_settles cfg_example 3000 AXIS_NEGATIVE).
  reflexivity.
Defined.

(** One step is not always enough: from Negative a sample above the upper
    trigger threshold gives Neutral first and Positive on the next step. *)
Example axis_settles_in_two_steps :
  axis_states cfg_example AXIS_NEGATIVE [3000; 3000; 3000]
  = [AXIS_NEUTRAL; AXIS_POSITIVE; AXIS_POSITIVE].
Proof. reflexivity. Qed.

(** The hysteresis band.  A sample between the trigger threshold and the
    release threshold of a direction holds that direction when it is
    engaged and does not engage it from Neutral. *)
Theorem axis_hysteresis_band (cfg : kscan_adc_joystick_config) (s : Z) :
  cfg_typed cfg = true ->
  (center cfg - deadzone cfg - hysteresis cfg <= s
     < center cfg - deadzone cfg + hysteresis cfg ->
   axis_from_sample s AXIS_NEGATIVE cfg = AXIS_NEGATIVE /\
   axis_from_sample s AXIS_NEUTRAL cfg = AXIS_NEUTRAL) /\
  (center cfg + deadzone cfg - hysteresis cfg < s
     <= center cfg + deadzone cfg + hysteresis cfg ->
   axis_from_sample s AXIS_POSITIVE cfg = AXIS_POSITIVE /\
   axis_from_sample s AXIS_NEUTRAL cfg = AXIS_NEUTRAL).
Proof.
  intros Hcfg.
  destruct (thresholds_exact cfg Hcfg) as (Hlon & Hloff & Hhon & Hhoff).
  pose proof (cfg_typed_thresholds cfg Hcfg) as Hr.
  unfold AXIS_NEGATIVE, AXIS_NEUTRAL, AXIS_POSITIVE.
  split; intros Hs; split.
  - unfold axis_from_sample. cbn. rewrite Hloff.
    destruct (Z.ltb_spec s (center cfg - (deadzone cfg - hysteresis cfg)));
      [reflexivity | lia].
  - unfold axis_from_sample. cbn. rewrite Hlon, Hhon, Z.gtb_ltb.
    destruct (Z.ltb_spec s (center cfg - (deadzone cfg + hysteresis cfg)));
      [lia |].
    destruct (Z.ltb_spec (center cfg + (deadzone cfg + hysteresis cfg)) s);
      [lia | reflexivity].
  - unfold axis_from_sample. cbn. rewrite Hhoff, Z.gtb_ltb.
    destruct (Z.ltb_spec (center cfg + (deadzone cfg - hysteresis cfg)) s);
      [reflexivity | lia].
  - unfold axis_from_sample. cbn. rewrite Hlon, Hhon, Z.gtb_ltb.
    destruct (Z.ltb_spec s (center cfg - (deadzone cfg + hysteresis cfg)));
      [lia |].
    destruct (Z.ltb_spec (center cfg + (deadzone cfg + hysteresis cfg)) s);
      [lia | reflexivity].
Qed.

Lemma axis_hysteresis_band_witness :
  axis_from_sample 1850 AXIS_NEGATIVE cfg_example = AXIS_NEGATIVE /\
  axis_from_sample 1850 AXIS_NEUTRAL cfg_example = AXIS_NEUTRAL.
Proof.
  apply (proj1 (axis_hysteresis_band cfg_example 1850 eq_refl)).
  cbn. lia.
Defined.

(** A sample at the centre releases every engaged direction exactly when
    the hysteresis does not exceed the dead zone.  With a larger hysteresis
    the release thresholds cross the centre and a stick at rest holds
    whichever direction is engaged. *)
Theorem axis_center_releases_iff (cfg : kscan_adc_joystick_config) :
  cfg_typed cfg = true ->
  ((forall prev : Z, axis_from_sample (center cfg) prev cfg = AXIS_NEUTRAL)
   <-> hysteresis cfg <= deadzone cfg) /\
  (deadzone cfg < hysteresis cfg ->
   axis_from_sample (center cfg) AXIS_NEGATIVE cfg = AXIS_NEGATIVE /\
   axis_from_sample (center cfg) AXIS_POSITIVE cfg = AXIS_POSITIVE).
Proof.
  intros Hcfg.
  destruct (thresholds_exact cfg Hcfg) as (Hlon & Hloff & Hhon & Hhoff).
  pose proof (cfg_typed_thresholds cfg Hcfg) as Hr.
  unfold AXIS_NEGATIVE, AXIS_NEUTRAL, AXIS_POSITIVE.
  assert (Hneg : deadzone cfg < hysteresis cfg ->
                 axis_from_sample (center cfg) (-1) cfg = -1).
  { intros Hlt. unfold axis_from_sample. cbn. rewrite Hloff.
    destruct (Z.ltb_spec (center cfg)
                (center cfg - (deadzone cfg - hysteresis cfg)));
      [reflexivity | lia]. }
  assert (Hpos : deadzone cfg < hysteresis cfg ->
                 axis_from_sample (center cfg) 1 cfg = 1).
  { intros Hlt. unfold axis_from_sample. cbn. rewrite Hhoff, Z.gtb_ltb.
    destruct (Z.ltb_spec (center cfg + (deadzone cfg - hysteresis cfg))
                (center cfg));
      [reflexivity | lia]. }
  split; [split |].
  - intros Hall. destruct (Z.le_gt_cases (hysteresis cfg) (deadzone cfg))
      as [Hle | Hgt]; [exact Hle |].
    specialize (Hall (-1)). rewrite Hneg in Hall by lia. discriminate.
  - intros Hle prev. unfold axis_from_sample.
    rewrite Hlon, Hloff, Hhon, Hhoff, !Z.gtb_ltb.
    repeat match goal with
      | |- context [?a <? ?b] => destruct (Z.ltb_spec a b); try lia
      end; reflexivity.
  - intros Hlt. split; [apply Hneg | apply Hpos]; exact Hlt.
Qed.

Lemma axis_center_releases_iff_witness :
  (forall prev : Z,
      axis_from_sample (center cfg_example) prev cfg_example = AXIS_NEUTRAL)
  <-> hysteresis cfg_example <= deadzone cfg_example.
Proof.
  apply (proj1 (axis_center_releases_iff cfg_example eq_refl)).
Defined.

(** ** Masks as numbers *)

Lemma bits_below_pow2 (m n : Z) :
  0 <= m -> 0 <= n ->
  (forall k, n <= k -> Z.testbit m k = false) ->
  m < 2 ^ n.
Proof.
  intros Hm Hn Hbits.
  assert (Heq : m mod 2 ^ n = m).
  { apply Z.bits_inj'. intros k Hk.
    destruct (Z.lt_ge_cases k n) as [Hlt | Hge].
    - now apply Z.mod_pow2_bits_low.
    - rewrite Z.mod_pow2_bits_high by lia. symmetry. now apply Hbits. }
  rewrite <- Heq. apply Z.mod_pos_bound. apply Z.pow_pos_nonneg; lia.
Qed.

Lemma uint32_nonneg (x : Z) : 0 <= uint32 x.
Proof.
  unfold uint32, wrap_unsigned. apply Z.mod_pos_bound. reflexivity.
Qed.

Lemma column_state_mask_nonneg (cfg : kscan_adc_joystick_config)
    (hw : hw_cycle) (ax ay : Z) :
  0 <= column_state_mask cfg hw ax ay.
Proof.
  unfold column_state_mask. cbv zeta.
  set (m0 := if ax <? 0 then _ else _).
  assert (Hm0 : 0 <= m0).
  { subst m0.
    repeat match goal with
      | |- context [if ?b then _ else _] => destruct b
      end; try apply uint32_nonneg; lia. }
  clearbody m0. generalize 0 at 2. revert m0 Hm0.
  induction (Z.to_nat (button_count cfg)) as [| n IH];
    intros m0 Hm0 i; cbn [for_loop]; [exact Hm0 |].
  apply IH. destruct (gpio_is_pressed (gpio_pin_get_dt hw i));
    [apply uint32_nonneg | exact Hm0].
Qed.

Lemma column_state_mask_bound (cfg : kscan_adc_joystick_config)
    (hw : hw_cycle) (ax ay : Z) :
  cfg_ok cfg = true ->
  0 <= column_state_mask cfg hw ax ay
    < 2 ^ (button_column_offset cfg + button_count cfg).
Proof.
  intros Hok. split; [apply column_state_mask_nonneg |].
  pose proof Hok as Hok'. unfold cfg_ok in Hok'.
  apply andb_true_iff in Hok'. destruct Hok' as [Hty Hlay].
  apply cfg_typed_columns in Hty. apply cfg_layout_columns in Hlay.
  apply bits_below_pow2; [apply column_state_mask_nonneg | lia |].
  intros k Hk. rewrite column_state_mask_bits by assumption.
  unfold JOY_COL_UP, JOY_COL_DOWN, JOY_COL_LEFT, JOY_COL_RIGHT.
  zbool_cases; reflexivity.
Qed.

(** The call of [emit_changes] in the scan: for a configuration the build
    assertions accept and a stored mask inside the columns, [max_cols] is
    at most 32 and neither mask has a bit at or above [max_cols]. *)
Lemma scan_emit_arguments (cfg : kscan_adc_joystick_config) (hw : hw_cycle)
    (data : kscan_adc_joystick_data) (ax ay : Z) :
  cfg_ok cfg = true ->
  data_ok cfg data = true ->
  let max_cols := uint8 (button_column_offset cfg + button_count cfg) in
  0 <= max_cols <= 32 /\
  0 <= state_mask data < 2 ^ max_cols /\
  0 <= column_state_mask cfg hw ax ay < 2 ^ max_cols.
Proof.
  intros Hok Hdata max_cols. subst max_cols.
  pose proof (column_state_mask_bound cfg hw ax ay Hok) as Hnew.
  unfold cfg_ok in Hok. apply andb_true_iff in Hok.
  destruct Hok as [Hty Hlay].
  apply cfg_typed_columns in Hty. apply cfg_layout_columns in Hlay.
  rewrite uint8_small by lia.
  unfold data_ok in Hdata. bool_to_prop.
  repeat split; try assumption; lia.
Qed.

Lemma apply_invert_is_axis (cfg : kscan_adc_joystick_config)
    (invert : bool) (s prev : Z) :
  is_axis (apply_invert invert (axis_from_sample s prev cfg)) = true.
Proof.
  unfold apply_invert.
  destruct (axis_from_sample_range cfg s prev) as [H | [H | H]];
    rewrite H; destruct invert; reflexivity.
Qed.

(** ** Replaying the calls *)

Lemma apply_call_bit (m : Z) (cb : kscan_callback_t) (r c k : Z) (p : bool) :
  0 <= c ->
  Z.testbit (apply_call m (mk_call cb r c p)) k
  = if c =? k then p else Z.testbit m k.
Proof.
  intros Hc. unfold apply_call. cbn [call_pressed call_column].
  destruct p.
  - rewrite Z.setbit_eqb by assumption. destruct (c =? k); reflexivity.
  - rewrite Z.clearbit_eqb. destruct (c =? k); cbn [negb];
      [apply andb_false_r | apply andb_true_r].
Qed.

Lemma apply_calls_bits (cb : kscan_callback_t) (new_mask k : Z)
    (cols : list Z) :
  forall m : Z,
    (forall c, In c cols -> 0 <= c) ->
    Z.testbit
      (apply_calls m
         (map (fun c => mk_call cb 0 c (Z.testbit new_mask c)) cols)) k
    = if in_dec Z.eq_dec k cols then Z.testbit new_mask k
      else Z.testbit m k.
Proof.
  unfold apply_calls.
  induction cols as [| c cols IH]; intros m Hpos; [reflexivity |].
  cbn [map fold_left]. rewrite IH by (intros c' Hc'; apply Hpos; now right).
  assert (Hc : 0 <= c) by (apply Hpos; now left).
  rewrite apply_call_bit by assumption.
  destruct (in_dec Z.eq_dec k cols) as [Hin | Hnin];
    destruct (in_dec Z.eq_dec k (c :: cols)) as [Hin' | Hnin'];
    try reflexivity.
  - exfalso. apply Hnin'. now right.
  - destruct Hin' as [-> | Hin']; [| contradiction].
    now rewrite Z.eqb_refl.
  - destruct (Z.eqb_spec c k) as [-> | Hne]; [| reflexivity].
    exfalso. apply Hnin'. now left.
Qed.

Lemma apply_calls_app (m : Z) (l1 l2 : list kscan_call) :
  apply_calls m (l1 ++ l2) = apply_calls (apply_calls m l1) l2.
Proof. unfold apply_calls. apply fold_left_app. Qed.

Lemma emit_changes_same_mask (data : kscan_adc_joystick_data)
    (m max_cols : Z) :
  emit_changes data m m max_cols = [].
Proof.
  unfold emit_changes. rewrite Z.lxor_nilpotent.
  destruct (callback data); reflexivity.
Qed.

(** Bit [k] of the mask obtained by replaying the calls of [emit_changes]
    on the old mask. *)
Lemma emit_changes_replay_bits (data : kscan_adc_joystick_data)
    (cb : kscan_callback_t) (old_mask new_mask max_cols k : Z) :
  callback data = Some cb ->
  0 <= k ->
  Z.testbit
    (apply_calls old_mask (emit_changes data old_mask new_mask max_cols)) k
  = if k <? max_cols then Z.testbit new_mask k else Z.testbit old_mask k.
Proof.
  intros Hcb Hk. rewrite emit_changes_calls, Hcb.
  rewrite apply_calls_bits.
  - destruct (in_dec Z.eq_dec k _) as [Hin | Hnin].
    + apply filter_In in Hin. destruct Hin as [Hin _].
      apply in_columns_from in Hin.
      destruct (Z.ltb_spec k max_cols); [reflexivity | lia].
    + destruct (Z.ltb_spec k max_cols) as [Hlt | Hge]; [| reflexivity].
      destruct (Z.testbit (Z.lxor old_mask new_mask) k) eqn:Hx.
      * exfalso. apply Hnin. apply filter_In. split; [| exact Hx].
        apply in_columns_from. lia.
      * rewrite Z.lxor_spec in Hx.
        destruct (Z.testbit old_mask k), (Z.testbit new_mask k);
          try reflexivity; discriminate.
  - intros c Hc. apply filter_In in Hc. destruct Hc as [Hc _].
    apply in_columns_from in Hc. lia.
Qed.

(** Replaying the calls of [emit_changes] on the old mask gives the new
    mask, when a callback is registered, [max_cols] is at most 32 (the
    columns for which [BIT] is defined) and the two masks agree on every
    column at or above [max_cols]. *)
Theorem emit_changes_replay (data : kscan_adc_joystick_data)
    (cb : kscan_callback_t) (old_mask new_mask max_cols : Z) :
  max_cols <= 32 ->
  callback data = Some cb ->
  (forall k, max_cols <= k -> Z.testbit old_mask k = Z.testbit new_mask k) ->
  apply_calls old_mask (emit_changes data old_mask new_mask max_cols)
  = new_mask.
Proof.
  intros _ Hcb Hhigh. apply Z.bits_inj'. intros k Hk.
  rewrite (emit_changes_replay_bits data cb) by assumption.
  destruct (Z.ltb_spec k max_cols) as [Hlt | Hge]; [reflexivity |].
  now apply Hhigh.
Qed.

Lemma emit_changes_replay_witness :
  apply_calls 5 (emit_changes (mk_data (Some 7%N) 0 0 0 true) 5 48 6) = 48.
Proof.
  apply (emit_changes_replay (mk_data (Some 7%N) 0 0 0 true) 7%N 5 48 6).
  - lia.
  - reflexivity.
  - intros k Hk. rewrite (testbit_below_pow2 5 6 k) by (cbn; lia).
    rewrite (testbit_below_pow2 48 6 k) by (cbn; lia). reflexivity.
Defined.

(** ** Calls and stored mask of a cycle *)

(** Every call a cycle makes goes to the registered callback with row 0 and
    a column below [button_column_offset + button_count]; it reports a
    column whose bit differs between the mask stored before and the mask
    stored after the cycle, with [pressed] the bit stored after.  So a
    press is only reported for a column that was released, and a release
    only for a column that was pressed. *)
Theorem scan_calls_sound (cfg : kscan_adc_joystick_config) (hw : hw_cycle)
    (data : kscan_adc_joystick_data) (call : kscan_call) :
  cfg_ok cfg = true ->
  In call (snd (kscan_adc_joystick_scan cfg hw data)) ->
  callback data = Some (call_target call) /\
  call_row call = 0 /\
  0 <= call_column call < button_column_offset cfg + button_count cfg /\
  call_pressed call
  = Z.testbit
      (state_mask (snd (fst (kscan_adc_joystick_scan cfg hw data))))
      (call_column call) /\
  Z.testbit (state_mask data) (call_column call)
  = negb (call_pressed call).
Proof.
  intros Hok Hin.
  pose proof Hok as Hok'. unfold cfg_ok in Hok'.
  apply andb_true_iff in Hok'. destruct Hok' as [Hty Hlay].
  apply cfg_typed_columns in Hty. apply cfg_layout_columns in Hlay.
  destruct (adc_succeeds (adc_x hw)) eqn:Hx;
    [destruct (adc_succeeds (adc_y hw)) eqn:Hy |].
  - rewrite (scan_success cfg hw data Hx Hy) in *. cbv zeta in *.
    cbn [fst snd state_mask] in *.
    rewrite emit_changes_calls in Hin.
    destruct (callback data) as [cb |]; [| contradiction].
    apply in_map_iff in Hin. destruct Hin as (c & <- & Hc).
    apply filter_In in Hc. destruct Hc as [Hc Hbit].
    apply in_columns_from in Hc. rewrite uint8_small in Hc by lia.
    cbn [call_target call_row call_column call_pressed].
    repeat split; try lia.
    rewrite Z.lxor_spec in Hbit.
    destruct (Z.testbit (state_mask data) c), (Z.testbit _ c);
      try reflexivity; discriminate.
  - destruct (scan_failure cfg hw data (or_intror Hy)) as [Hs _].
    rewrite Hs in Hin. contradiction.
  - destruct (scan_failure cfg hw data (or_introl Hx)) as [Hs _].
    rewrite Hs in Hin. contradiction.
Qed.

Lemma scan_calls_sound_witness :
  let data := mk_data (Some 7%N) 4 (-1) 0 true in
  let hw := hw_example (adc_ok 2048) (adc_ok 2048) 0 1 in
  let call := mk_call 7%N 0 JOY_COL_LEFT false in
  callback data = Some (call_target call) /\
  call_row call = 0 /\
  0 <= call_column call
    < button_column_offset cfg_example + button_count cfg_example /\
  call_pressed call
  = Z.testbit
      (state_mask (snd (fst (kscan_adc_joystick_scan cfg_example hw data))))
      (call_column call) /\
  Z.testbit (state_mask data) (call_column call)
  = negb (call_pressed call).
Proof.
  apply (scan_calls_sound cfg_example
           (hw_example (adc_ok 2048) (adc_ok 2048) 0 1)
           (mk_data (Some 7%N) 4 (-1) 0 true)
           (mk_call 7%N 0 JOY_COL_LEFT false)).
  - reflexivity.
  - cbn. left. reflexivity.
Defined.

(** After a cycle whose axis reads succeed, the stored mask follows the
    stored axis values and the button reads: UP and DOWN are the sign of the
    stored Y value, LEFT and RIGHT the sign of the stored X value, and the
    column of button [i] is set exactly when its GPIO read returned a
    positive value. *)
Theorem scan_mask_bits (cfg : kscan_adc_joystick_config) (hw : hw_cycle)
    (data : kscan_adc_joystick_data) :
  cfg_ok cfg = true ->
  adc_succeeds (adc_x hw) = true ->
  adc_succeeds (adc_y hw) = true ->
  let data' := snd (fst (kscan_adc_joystick_scan cfg hw data)) in
  Z.testbit (state_mask data') JOY_COL_UP = (axis_y data' <? 0) /\
  Z.testbit (state_mask data') JOY_COL_DOWN = (axis_y data' >? 0) /\
  Z.testbit (state_mask data') JOY_COL_LEFT = (axis_x data' <? 0) /\
  Z.testbit (state_mask data') JOY_COL_RIGHT = (axis_x data' >? 0) /\
  (forall i : Z,
      0 <= i < button_count cfg ->
      Z.testbit (state_mask data') (button_column_offset cfg + i)
      = (gpio_pin_get_dt hw i >? 0)).
Proof.
  intros Hok Hx Hy data'. subst data'.
  rewrite (scan_success cfg hw data Hx Hy). cbv zeta.
  cbn [fst snd state_mask axis_x axis_y].
  destruct (column_state_mask_directions cfg hw
              (apply_invert (invert_x cfg)
                 (axis_from_sample (int16 (buffer_word (adc_x hw)))
                    (axis_x data) cfg))
              (apply_invert (invert_y cfg)
                 (axis_from_sample (int16 (buffer_word (adc_y hw)))
                    (axis_y data) cfg)) Hok)
    as (Hup & Hdown & Hleft & Hright).
  repeat split; try assumption.
  intros i Hi. rewrite column_state_mask_button by assumption.
  unfold gpio_is_pressed. rewrite Z.gtb_ltb.
  destruct (Z.ltb_spec (gpio_pin_get_dt hw i) 0); [| reflexivity].
  symmetry. apply Z.ltb_ge. lia.
Qed.

Lemma scan_mask_bits_witness :
  let hw := hw_example (adc_ok 1000) (adc_ok 3000) 1 0 in
  let data' :=
    snd (fst (kscan_adc_joystick_scan cfg_inverted hw init_data)) in
  Z.testbit (state_mask data') JOY_COL_UP = (axis_y data' <? 0) /\
  Z.testbit (state_mask data') JOY_COL_DOWN = (axis_y data' >? 0) /\
  Z.testbit (state_mask data') JOY_COL_LEFT = (axis_x data' <? 0) /\
  Z.testbit (state_mask data') JOY_COL_RIGHT = (axis_x data' >? 0) /\
  (forall i : Z,
      0 <= i < button_count cfg_inverted ->
      Z.testbit (state_mask data') (button_column_offset cfg_inverted + i)
      = (gpio_pin_get_dt hw i >? 0)).
Proof.
  apply (scan_mask_bits cfg_inverted
           (hw_example (adc_ok 1000) (adc_ok 3000) 1 0) init_data);
    reflexivity.
Defined.

(** ** Invariant of the driver data *)

Lemma work_is_scan (cfg : kscan_adc_joystick_config) (hw : hw_cycle)
    (data : kscan_adc_joystick_data) :
  kscan_adc_joystick_work cfg hw data
  = (snd (fst (kscan_adc_joystick_scan cfg hw data)),
     snd (kscan_adc_joystick_scan cfg hw data),
     if enabled (snd (fst (kscan_adc_joystick_scan cfg hw data)))
     then [k_work_reschedule (poll_period_ms cfg)] else []).
Proof.
  unfold kscan_adc_joystick_work.
  destruct (kscan_adc_joystick_scan cfg hw data) as [[ret d] calls].
  reflexivity.
Qed.

Lemma run_work_cons (cfg : kscan_adc_joystick_config) (hw : hw_cycle)
    (rest : list hw_cycle) (data : kscan_adc_joystick_data) :
  run_work cfg (hw :: rest) data
  = (fst (run_work cfg rest
            (snd (fst (kscan_adc_joystick_scan cfg hw data)))),
     snd (kscan_adc_joystick_scan cfg hw data)
     :: snd (run_work cfg rest
               (snd (fst (kscan_adc_joystick_scan cfg hw data))))).
Proof.
  cbn [run_work]. rewrite work_is_scan.
  destruct (run_work cfg rest _) as [d later]. reflexivity.
Qed.

Lemma scan_keeps_data_ok (cfg : kscan_adc_joystick_config) (hw : hw_cycle)
    (data : kscan_adc_joystick_data) :
  cfg_ok cfg = true ->
  data_ok cfg data = true ->
  data_ok cfg (snd (fst (kscan_adc_joystick_scan cfg hw data))) = true /\
  callback (snd (fst (kscan_adc_joystick_scan cfg hw data))) = callback data /\
  enabled (snd (fst (kscan_adc_joystick_scan cfg hw data))) = enabled data.
Proof.
  intros Hok Hdata.
  destruct (adc_succeeds (adc_x hw)) eqn:Hx;
    [destruct (adc_succeeds (adc_y hw)) eqn:Hy |].
  - rewrite (scan_success cfg hw data Hx Hy). cbv zeta. cbn [fst snd].
    split; [| split; reflexivity].
    unfold data_ok. cbn [state_mask axis_x axis_y].
    rewrite !apply_invert_is_axis.
    destruct (column_state_mask_bound cfg hw
                (apply_invert (invert_x cfg)
                   (axis_from_sample (int16 (buffer_word (adc_x hw)))
                      (axis_x data) cfg))
                (apply_invert (invert_y cfg)
                   (axis_from_sample (int16 (buffer_word (adc_y hw)))
                      (axis_y data) cfg)) Hok) as [Hlo Hhi].
    apply Z.leb_le in Hlo. apply Z.ltb_lt in Hhi. rewrite Hlo, Hhi.
    reflexivity.
  - destruct (scan_failure cfg hw data (or_intror Hy)) as [-> _].
    repeat split; assumption.
  - destruct (scan_failure cfg hw data (or_introl Hx)) as [-> _].
    repeat split; assumption.
Qed.

Lemma run_work_keeps_data_ok (cfg : kscan_adc_joystick_config)
    (hws : list hw_cycle) :
  cfg_ok cfg = true ->
  forall data : kscan_adc_joystick_data,
    data_ok cfg data = true ->
    data_ok cfg (fst (run_work cfg hws data)) = true /\
    callback (fst (run_work cfg hws data)) = callback data /\
    enabled (fst (run_work cfg hws data)) = enabled data.
Proof.
  intros Hok. induction hws as [| hw rest IH]; intros data Hdata.
  - cbn. repeat split; assumption.
  - rewrite run_work_cons. cbn [fst].
    destruct (scan_keeps_data_ok cfg hw data Hok Hdata) as (Hd & Hcb & Hen).
    destruct (IH _ Hd) as (Hd' & Hcb' & Hen').
    repeat split; congruence.
Qed.

(** Every operation of the driver keeps the stored mask inside the columns
    of the configuration, hence inside 32 bits, and the stored axis values
    among -1, 0 and 1: initialization establishes this, and configure,
    enable, disable and any number of work-handler cycles, failed or not,
    preserve it together with the registered callback and the enabled
    flag. *)
Theorem driver_keeps_data_ok (cfg : kscan_adc_joystick_config)
    (data : kscan_adc_joystick_data) :
  cfg_ok cfg = true ->
  data_ok cfg data = true ->
  0 <= state_mask data < 2 ^ 32 /\
  (forall (hwi : hw_init) (d : kscan_adc_joystick_data),
      data_ok cfg (snd (kscan_adc_joystick_init cfg hwi d)) = true) /\
  (forall cb : option kscan_callback_t,
      data_ok cfg (snd (kscan_adc_joystick_configure data cb)) = true) /\
  data_ok cfg (fst (kscan_adc_joystick_enable data)) = true /\
  data_ok cfg (fst (kscan_adc_joystick_disable data)) = true /\
  (forall hws : list hw_cycle,
      data_ok cfg (fst (run_work cfg hws data)) = true /\
      callback (fst (run_work cfg hws data)) = callback data /\
      enabled (fst (run_work cfg hws data)) = enabled data).
Proof.
  intros Hok Hdata.
  pose proof Hok as Hok'. unfold cfg_ok in Hok'.
  apply andb_true_iff in Hok'. destruct Hok' as [Hty Hlay].
  apply cfg_typed_columns in Hty. apply cfg_layout_columns in Hlay.
  assert (Hpow : 0 < 2 ^ (button_column_offset cfg + button_count cfg))
    by (apply Z.pow_pos_nonneg; lia).
  split; [| split; [| split; [| split; [| split]]]].
  - pose proof Hdata as Hd. unfold data_ok in Hd. bool_to_prop.
    split; [assumption |].
    apply Z.lt_le_trans
      with (2 ^ (button_column_offset cfg + button_count cfg));
      [assumption | apply Z.pow_le_mono_r; lia].
  - intros hwi d.
    assert (Hinit : snd (kscan_adc_joystick_init cfg hwi d)
                    = mk_data None 0 0 0 false).
    { unfold kscan_adc_joystick_init. cbv zeta.
      repeat match goal with
        | |- context [if ?b then _ else _] => destruct b
        | |- context [match ?o with Some _ => _ | None => _ end] => destruct o
        end; reflexivity. }
    rewrite Hinit. unfold data_ok. cbn [state_mask axis_x axis_y].
    apply Z.ltb_lt in Hpow. rewrite Hpow. reflexivity.
  - intros [f |]; exact Hdata.
  - exact Hdata.
  - exact Hdata.
  - intros hws. apply run_work_keeps_data_ok; assumption.
Qed.

Lemma driver_keeps_data_ok_witness :
  0 <= state_mask init_data < 2 ^ 32 /\
  (forall (hwi : hw_init) (d : kscan_adc_joystick_data),
      data_ok cfg_example (snd (kscan_adc_joystick_init cfg_example hwi d))
      = true) /\
  (forall cb : option kscan_callback_t,
      data_ok cfg_example (snd (kscan_adc_joystick_configure init_data cb))
      = true) /\
  data_ok cfg_example (fst (kscan_adc_joystick_enable init_data)) = true /\
  data_ok cfg_example (fst (kscan_adc_joystick_disable init_data)) = true /\
  (forall hws : list hw_cycle,
      data_ok cfg_example (fst (run_work cfg_example hws init_data)) = true /\
      callback (fst (run_work cfg_example hws init_data))
      = callback init_data /\
      enabled (fst (run_work cfg_example hws init_data))
      = enabled init_data).
Proof.
  apply (driver_keeps_data_ok cfg_example init_data); reflexivity.
Defined.

(** Over any number of work-handler cycles, failed ones included, a
    listener that starts from the stored mask and replays every call it
    receives holds the mask the driver stores at the end. *)
Theorem run_work_replay (cfg : kscan_adc_joystick_config)
    (cb : kscan_callback_t) (hws : list hw_cycle)
    (data : kscan_adc_joystick_data) :
  cfg_ok cfg = true ->
  data_ok cfg data = true ->
  callback data = Some cb ->
  apply_calls (state_mask data) (concat (snd (run_work cfg hws data)))
  = state_mask (fst (run_work cfg hws data)).
Proof.
  intros Hok. revert data.
  induction hws as [| hw rest IH]; intros data Hdata Hcb; [reflexivity |].
  rewrite run_work_cons. cbn [fst snd concat].
  rewrite apply_calls_app.
  destruct (scan_keeps_data_ok cfg hw data Hok Hdata) as (Hd & Hcb' & _).
  assert (Hstep : apply_calls (state_mask data)
                    (snd (kscan_adc_joystick_scan cfg hw data))
                  = state_mask
                      (snd (fst (kscan_adc_joystick_scan cfg hw data)))).
  { pose proof Hok as Hok'. unfold cfg_ok in Hok'.
    apply andb_true_iff in Hok'. destruct Hok' as [Hty Hlay].
    apply cfg_typed_columns in Hty. apply cfg_layout_columns in Hlay.
    clear Hd Hcb'.
    destruct (adc_succeeds (adc_x hw)) eqn:Hx;
      [destruct (adc_succeeds (adc_y hw)) eqn:Hy |].
    - rewrite (scan_success cfg hw data Hx Hy). cbv zeta.
      cbn [fst snd state_mask].
      apply Z.bits_inj'. intros k Hk0.
      rewrite (emit_changes_replay_bits data cb) by assumption.
      rewrite uint8_small by lia.
      destruct (Z.ltb_spec k (button_column_offset cfg + button_count cfg))
        as [Hlt | Hk]; [reflexivity |].
      unfold data_ok in Hdata. bool_to_prop.
      rewrite (testbit_below_pow2 (state_mask data)
                 (button_column_offset cfg + button_count cfg) k) by lia.
      symmetry.
      apply (testbit_below_pow2 _
               (button_column_offset cfg + button_count cfg) k); [| lia].
      apply column_state_mask_bound. exact Hok.
    - destruct (scan_failure cfg hw data (or_intror Hy)) as [-> _].
      reflexivity.
    - destruct (scan_failure cfg hw data (or_introl Hx)) as [-> _].
      reflexivity. }
  rewrite Hstep. apply IH; [exact Hd | congruence].
Qed.

Lemma run_work_replay_witness :
  let hws :=
    [hw_example (adc_ok 1000) (adc_ok 2048) 1 0;
     hw_example (adc_fail (-5)) (adc_ok 2048) 1 1;
     hw_example (adc_ok 2048) (adc_ok 3000) 0 1] in
  let data := mk_data (Some 7%N) 0 0 0 true in
  apply_calls (state_mask data)
    (concat (snd (run_work cfg_example hws data)))
  = state_mask (fst (run_work cfg_example hws data)).
Proof.
  apply (run_work_replay cfg_example 7%N
           [hw_example (adc_ok 1000) (adc_ok 2048) 1 0;
            hw_example (adc_fail (-5)) (adc_ok 2048) 1 1;
            hw_example (adc_ok 2048) (adc_ok 3000) 0 1]
           (mk_data (Some 7%N) 0 0 0 true)); reflexivity.
Defined.

(** ** Steady inputs *)

(** Without inversion, when the hardware reads stay the same and the axis
    reads succeed, the driver data after two cycles is a fixed point of the
    cycle: every further cycle returns 0, makes no call and stores the same
    data. *)
Theorem scan_steady_state (cfg : kscan_adc_joystick_config) (hw : hw_cycle)
    (data : kscan_adc_joystick_data) :
  cfg_typed cfg = true ->
  invert_x cfg = false ->
  invert_y cfg = false ->
  adc_succeeds (adc_x hw) = true ->
  adc_succeeds (adc_y hw) = true ->
  let d1 := snd (fst (kscan_adc_joystick_scan cfg hw data)) in
  let d2 := snd (fst (kscan_adc_joystick_scan cfg hw d1)) in
  kscan_adc_joystick_scan cfg hw d2 = (0, d2, []).
Proof.
  intros Hcfg Hix Hiy Hx Hy d1 d2. subst d1 d2.
  rewrite !(scan_success cfg hw _ Hx Hy). cbv zeta.
  cbn [fst snd axis_x axis_y state_mask callback enabled].
  rewrite Hix, Hiy. unfold apply_invert.
  rewrite (axis_third_step cfg (int16 (buffer_word (adc_x hw)))
             (axis_x data) Hcfg).
  rewrite (axis_third_step cfg (int16 (buffer_word (adc_y hw)))
             (axis_y data) Hcfg).
  rewrite emit_changes_same_mask. reflexivity.
Qed.

Lemma scan_steady_state_witness :
  let hw := hw_example (adc_ok 3000) (adc_ok 1000) 1 0 in
  let d1 :=
    snd (fst (kscan_adc_joystick_scan cfg_example hw
                (mk_data (Some 7%N) 4 (-1) 1 true))) in
  let d2 := snd (fst (kscan_adc_joystick_scan cfg_example hw d1)) in
  kscan_adc_joystick_scan cfg_example hw d2 = (0, d2, []).
Proof.
  apply (scan_steady_state cfg_example
           (hw_example (adc_ok 3000) (adc_ok 1000) 1 0)
           (mk_data (Some 7%N) 4 (-1) 1 true)); reflexivity.
Defined.

(** ** Configure, enable and disable *)

Lemma scan_keeps_callback (cfg : kscan_adc_joystick_config) (hw : hw_cycle)
    (data : kscan_adc_joystick_data) :
  callback (snd (fst (kscan_adc_joystick_scan cfg hw data))) = callback data.
Proof.
  unfold kscan_adc_joystick_scan. cbv zeta.
  destruct (adc_read_raw (adc_x hw) 0) as [rx x].
  destruct (rx <? 0); [reflexivity |].
  destruct (adc_read_raw (adc_y hw) 0) as [ry y].
  destruct (ry <? 0); reflexivity.
Qed.

Lemma scan_calls_target (cfg : kscan_adc_joystick_config) (hw : hw_cycle)
    (data : kscan_adc_joystick_data) (call : kscan_call) :
  In call (snd (kscan_adc_joystick_scan cfg hw data)) ->
  callback data = Some (call_target call).
Proof.
  unfold kscan_adc_joystick_scan. cbv zeta.
  destruct (adc_read_raw (adc_x hw) 0) as [rx x].
  destruct (rx <? 0); [contradiction |].
  destruct (adc_read_raw (adc_y hw) 0) as [ry y].
  destruct (ry <? 0); [contradiction |].
  cbn [snd]. rewrite emit_changes_calls.
  destruct (callback data) as [cb |]; [| contradiction].
  intros Hin. apply in_map_iff in Hin. destruct Hin as (c & <- & _).
  reflexivity.
Qed.

Lemma run_work_calls_target (cfg : kscan_adc_joystick_config)
    (hws : list hw_cycle) :
  forall (data : kscan_adc_joystick_data) (calls : list kscan_call)
         (call : kscan_call),
    In calls (snd (run_work cfg hws data)) ->
    In call calls ->
    callback data = Some (call_target call).
Proof.
  induction hws as [| hw rest IH]; intros data calls call Hin Hcall.
  - contradiction.
  - rewrite run_work_cons in Hin. cbn [snd] in Hin.
    destruct Hin as [<- | Hin].
    + now apply (scan_calls_target cfg hw).
    + rewrite <- (scan_keeps_callback cfg hw data).
      now apply (IH _ calls).
Qed.

(** [configure] with a callback returns 0 and stores it, replacing any
    callback registered before and leaving mask, axis values and enabled
    flag as they were; every call of the cycles that follow goes to the
    callback configured last. *)
Theorem configure_registers (data : kscan_adc_joystick_data)
    (f g : kscan_callback_t) :
  let d1 := snd (kscan_adc_joystick_configure data (Some f)) in
  let d2 := snd (kscan_adc_joystick_configure d1 (Some g)) in
  fst (kscan_adc_joystick_configure data (Some f)) = 0 /\
  d1 = mk_data (Some f) (state_mask data) (axis_x data) (axis_y data)
         (enabled data) /\
  d2 = mk_data (Some g) (state_mask data) (axis_x data) (axis_y data)
         (enabled data) /\
  (forall (cfg : kscan_adc_joystick_config) (hws : list hw_cycle)
          (calls : list kscan_call) (call : kscan_call),
      In calls (snd (run_work cfg hws d2)) ->
      In call calls ->
      call_target call = g).
Proof.
  cbv zeta. cbn [kscan_adc_joystick_configure fst snd state_mask axis_x
                   axis_y enabled].
  split; [reflexivity |]. split; [reflexivity |]. split; [reflexivity |].
  intros cfg hws calls call Hin Hcall.
  pose proof (run_work_calls_target cfg hws _ calls call Hin Hcall) as Ht.
  cbn [callback] in Ht. now injection Ht.
Qed.

Lemma configure_registers_witness :
  call_target (mk_call 9%N 0 JOY_COL_LEFT true) = 9%N.
Proof.
  apply (proj2 (proj2 (proj2 (configure_registers init_data 7%N 9%N)))
           cfg_example
           [hw_example (adc_ok 1000) (adc_ok 2048) 0 0]
           [mk_call 9%N 0 JOY_COL_LEFT true]
           (mk_call 9%N 0 JOY_COL_LEFT true)).
  - cbn. left. reflexivity.
  - cbn. left. reflexivity.
Defined.

(** [disable] stops the rescheduling and nothing else: a cycle that runs
    after it makes the calls and stores the mask and axis values it would
    have stored otherwise, and requests no further cycle; [enable] and
    [disable] change the enabled flag only, and request an immediate cycle
    and the cancellation of the pending one. *)
Theorem disable_stops_rescheduling_only (cfg : kscan_adc_joystick_config)
    (hw : hw_cycle) (data : kscan_adc_joystick_data) :
  let off := fst (kscan_adc_joystick_disable data) in
  let on := fst (kscan_adc_joystick_enable data) in
  off = mk_data (callback data) (state_mask data) (axis_x data)
          (axis_y data) false /\
  on = mk_data (callback data) (state_mask data) (axis_x data)
         (axis_y data) true /\
  snd (kscan_adc_joystick_disable data) = [k_work_cancel_delayable] /\
  snd (kscan_adc_joystick_enable data) = [k_work_reschedule 0] /\
  snd (kscan_adc_joystick_work cfg hw off) = [] /\
  snd (fst (kscan_adc_joystick_work cfg hw off))
  = snd (fst (kscan_adc_joystick_work cfg hw on)) /\
  state_mask (fst (fst (kscan_adc_joystick_work cfg hw off)))
  = state_mask (fst (fst (kscan_adc_joystick_work cfg hw on))) /\
  enabled (fst (fst (kscan_adc_joystick_work cfg hw off))) = false.
Proof.
  cbv zeta. rewrite !work_is_scan.
  cbn [kscan_adc_joystick_disable kscan_adc_joystick_enable fst snd].
  unfold kscan_adc_joystick_scan. cbv zeta.
  destruct (adc_read_raw (adc_x hw) 0) as [rx x].
  destruct (adc_read_raw (adc_y hw) 0) as [ry y].
  destruct (rx <? 0), (ry <? 0); repeat split; reflexivity.
Qed.

(** ** Initialization *)

Lemma init_buttons_none (hw : hw_init) (n : nat) :
  forall i : Z,
    init_buttons hw n i = None <->
    (forall j, i <= j < i + Z.of_nat n ->
               button_port_ready hw j = true /\ 0 <= button_configure_ret hw j).
Proof.
  induction n as [| n IH]; intros i; cbn [init_buttons].
  - split; [intros _ j Hj; lia | reflexivity].
  - destruct (button_port_ready hw i) eqn:Hr; cbn [negb].
    + destruct (Z.ltb_spec (button_configure_ret hw i) 0) as [Hc | Hc].
      * split; [discriminate |]. intros Hall.
        destruct (Hall i ltac:(lia)) as [_ H0]. lia.
      * rewrite IH. split; intros Hall j Hj.
        -- destruct (Z.eq_dec j i) as [-> | Hne]; [split; assumption |].
           apply Hall. lia.
        -- apply Hall. lia.
    + split; [discriminate |]. intros Hall.
      destruct (Hall i ltac:(lia)) as [H0 _]. congruence.
Qed.

Lemma init_buttons_first_failure (hw : hw_init) (n : nat) :
  forall i j : Z,
    i <= j < i + Z.of_nat n ->
    (forall j', i <= j' < j ->
                button_port_ready hw j' = true /\
                0 <= button_configure_ret hw j') ->
    button_port_ready hw j = false \/ button_configure_ret hw j < 0 ->
    init_buttons hw n i
    = Some (if button_port_ready hw j then button_configure_ret hw j
            else - ENODEV).
Proof.
  induction n as [| n IH]; intros i j Hj Hbefore Hfail; [lia |].
  cbn [init_buttons].
  destruct (Z.eq_dec j i) as [-> | Hne].
  - destruct (button_port_ready hw i); cbn [negb]; [| reflexivity].
    destruct Hfail as [Hf | Hf]; [discriminate |].
    destruct (Z.ltb_spec (button_configure_ret hw i) 0); [reflexivity | lia].
  - destruct (Hbefore i ltac:(lia)) as [Hr Hc]. rewrite Hr. cbn [negb].
    destruct (Z.ltb_spec (button_configure_ret hw i) 0); [lia |].
    apply IH; [lia | | exact Hfail].
    intros j' Hj'. apply Hbefore. lia.
Qed.

Lemma init_buttons_negative (hw : hw_init) (n : nat) :
  forall (i r : Z), init_buttons hw n i = Some r -> r < 0.
Proof.
  induction n as [| n IH]; intros i r; cbn [init_buttons]; [discriminate |].
  destruct (button_port_ready hw i); cbn [negb].
  - destruct (Z.ltb_spec (button_configure_ret hw i) 0).
    + intros H0. injection H0 as <-. assumption.
    + apply IH.
  - intros H0. injection H0 as <-. reflexivity.
Qed.

(** Initialization returns 0 exactly when both ADC channels are ready, both
    channel setups return a non-negative code, and every button below
    [button_count] has its port ready and its pin configuration return a
    non-negative code. *)
Theorem init_ok_iff (cfg : kscan_adc_joystick_config) (hw : hw_init)
    (data : kscan_adc_joystick_data) :
  fst (kscan_adc_joystick_init cfg hw data) = 0 <->
  adc_x_ready hw = true /\ adc_y_ready hw = true /\
  0 <= adc_x_setup_ret hw /\ 0 <= adc_y_setup_ret hw /\
  (forall j, 0 <= j < button_count cfg ->
             button_port_ready hw j = true /\ 0 <= button_configure_ret hw j).
Proof.
  unfold kscan_adc_joystick_init, ENODEV. cbv zeta.
  destruct (adc_x_ready hw); cbn [negb fst];
    [| split; [discriminate | intros (H & _); discriminate]].
  destruct (adc_y_ready hw); cbn [negb fst];
    [| split; [discriminate | intros (_ & H & _); discriminate]].
  destruct (Z.ltb_spec (adc_x_setup_ret hw) 0) as [Hx | Hx]; cbn [fst];
    [split; [lia | intros (_ & _ & H & _); lia] |].
  destruct (Z.ltb_spec (adc_y_setup_ret hw) 0) as [Hy | Hy]; cbn [fst];
    [split; [lia | intros (_ & _ & _ & H & _); lia] |].
  destruct (init_buttons hw (Z.to_nat (button_count cfg)) 0) as [r |] eqn:Hb;
    cbn [fst].
  - pose proof (init_buttons_negative _ _ _ _ Hb) as Hneg.
    split; [lia |]. intros (_ & _ & _ & _ & Hall).
    assert (Hnone : init_buttons hw (Z.to_nat (button_count cfg)) 0 = None).
    { apply init_buttons_none. intros j Hj. apply Hall. lia. }
    congruence.
  - split; [| reflexivity]. intros _.
    repeat split; try assumption;
      apply init_buttons_none with (j := j) in Hb; try lia; apply Hb.
Qed.

(** Initialization never returns a positive code, and its checks run in a
    fixed order, the first failing one giving the code: [-ENODEV] for an
    ADC channel that is not ready, then the negative code of the X and of
    the Y channel setup, then, for the first button that fails, [-ENODEV]
    when its port is not ready and else the negative code of its pin
    configuration. *)
Theorem init_failure_code (cfg : kscan_adc_joystick_config) (hw : hw_init)
    (data : kscan_adc_joystick_data) :
  fst (kscan_adc_joystick_init cfg hw data) <= 0 /\
  (adc_x_ready hw = false \/ adc_y_ready hw = false ->
   fst (kscan_adc_joystick_init cfg hw data) = - ENODEV) /\
  (adc_x_ready hw = true -> adc_y_ready hw = true ->
   adc_x_setup_ret hw < 0 ->
   fst (kscan_adc_joystick_init cfg hw data) = adc_x_setup_ret hw) /\
  (adc_x_ready hw = true -> adc_y_ready hw = true ->
   0 <= adc_x_setup_ret hw -> adc_y_setup_ret hw < 0 ->
   fst (kscan_adc_joystick_init cfg hw data) = adc_y_setup_ret hw) /\
  (forall j : Z,
      adc_x_ready hw = true -> adc_y_ready hw = true ->
      0 <= adc_x_setup_ret hw -> 0 <= adc_y_setup_ret hw ->
      0 <= j < button_count cfg ->
      (forall j', 0 <= j' < j ->
                  button_port_ready hw j' = true /\
                  0 <= button_configure_ret hw j') ->
      button_port_ready hw j = false \/ button_configure_ret hw j < 0 ->
      fst (kscan_adc_joystick_init cfg hw data)
      = if button_port_ready hw j then button_configure_ret hw j
        else - ENODEV).
Proof.
  unfold kscan_adc_joystick_init. cbv zeta.
  split; [| split; [| split; [| split]]].
  - destruct (adc_x_ready hw); cbn [negb fst]; [| unfold ENODEV; lia].
    destruct (adc_y_ready hw); cbn [negb fst]; [| unfold ENODEV; lia].
    destruct (Z.ltb_spec (adc_x_setup_ret hw) 0); cbn [fst]; [lia |].
    destruct (Z.ltb_spec (adc_y_setup_ret hw) 0); cbn [fst]; [lia |].
    destruct (init_buttons hw (Z.to_nat (button_count cfg)) 0) as [r |] eqn:Hb;
      cbn [fst]; [| lia].
    pose proof (init_buttons_negative _ _ _ _ Hb). lia.
  - intros [Hx | Hy].
    + rewrite Hx. reflexivity.
    + rewrite Hy. destruct (adc_x_ready hw); reflexivity.
  - intros -> -> Hx. cbn [negb].
    destruct (Z.ltb_spec (adc_x_setup_ret hw) 0); [reflexivity | lia].
  - intros -> -> Hx Hy. cbn [negb].
    destruct (Z.ltb_spec (adc_x_setup_ret hw) 0); [lia |].
    destruct (Z.ltb_spec (adc_y_setup_ret hw) 0); [reflexivity | lia].
  - intros j -> -> Hx Hy Hj Hbefore Hfail. cbn [negb].
    destruct (Z.ltb_spec (adc_x_setup_ret hw) 0); [lia |].
    destruct (Z.ltb_spec (adc_y_setup_ret hw) 0); [lia |].
    rewrite (init_buttons_first_failure hw _ 0 j) by (assumption || lia).
    reflexivity.
Qed.

Lemma init_failure_code_witness :
  fst (kscan_adc_joystick_init cfg_example
         (mk_hw_init true true 0 3 (fun _ => true)
            (fun i => if i =? 1 then -5 else 0))
         init_data)
  = -5.
Proof.
  apply (proj2 (proj2 (proj2 (proj2
           (init_failure_code cfg_example
              (mk_hw_init true true 0 3 (fun _ => true)
                 (fun i => if i =? 1 then -5 else 0))
              init_data)))) 1).
  - reflexivity.
  - reflexivity.
  - cbn. lia.
  - cbn. lia.
  - cbn. lia.
  - intros j' Hj'. assert (j' = 0) by lia. subst j'. cbn.
    split; [reflexivity | lia].
  - right. cbn. lia.
Defined.

(** Initialization resets the driver data whatever it returns and whatever
    the data held: no callback registered, empty mask, both axes Neutral,
    disabled.  A callback registered earlier is dropped, so until
    [configure] is called again a cycle makes no call, and the work handler
    requests no further cycle. *)
Theorem init_resets_data (cfg : kscan_adc_joystick_config) (hw : hw_init)
    (data : kscan_adc_joystick_data) :
  snd (kscan_adc_joystick_init cfg hw data) = mk_data None 0 0 0 false /\
  (forall (cfg' : kscan_adc_joystick_config) (hwc : hw_cycle),
      snd (fst (kscan_adc_joystick_work cfg' hwc
                  (snd (kscan_adc_joystick_init cfg hw data)))) = [] /\
      snd (kscan_adc_joystick_work cfg' hwc
             (snd (kscan_adc_joystick_init cfg hw data))) = []).
Proof.
  assert (Hinit : snd (kscan_adc_joystick_init cfg hw data)
                  = mk_data None 0 0 0 false).
  { unfold kscan_adc_joystick_init. cbv zeta.
    repeat match goal with
      | |- context [if ?b then _ else _] => destruct b
      | |- context [match ?o with Some _ => _ | None => _ end] => destruct o
      end; reflexivity. }
  rewrite Hinit. split; [reflexivity |].
  intros cfg' hwc. rewrite work_is_scan. cbn [fst snd].
  unfold kscan_adc_joystick_scan. cbv zeta.
  destruct (adc_read_raw (adc_x hwc) 0) as [rx x].
  destruct (adc_read_raw (adc_y hwc) 0) as [ry y].
  destruct (rx <? 0), (ry <? 0); cbn [fst snd enabled];
    rewrite ?emit_changes_calls; split; reflexivity.
Qed.

(** ** Samples are 16-bit, thresholds are not *)

(** The sample of a cycle comes from an [int16_t] buffer, so it is at most
    32767, while the thresholds are sums of [uint16_t] values.  When the
    upper release threshold [center + deadzone - hysteresis] is 32767 or
    more, no cycle quantizes the X sample to Positive; without inversion
    the stored X value is then never Positive and column RIGHT is never
    set. *)
Theorem scan_never_positive_above_int16 (cfg : kscan_adc_joystick_config)
    (hw : hw_cycle) (data : kscan_adc_joystick_data) :
  cfg_ok cfg = true ->
  32767 <= center cfg + deadzone cfg - hysteresis cfg ->
  adc_succeeds (adc_x hw) = true ->
  adc_succeeds (adc_y hw) = true ->
  axis_from_sample (snd (adc_read_raw (adc_x hw) 0)) (axis_x data) cfg
  <> AXIS_POSITIVE /\
  (invert_x cfg = false ->
   axis_x (snd (fst (kscan_adc_joystick_scan cfg hw data))) <> AXIS_POSITIVE /\
   Z.testbit (state_mask (snd (fst (kscan_adc_joystick_scan cfg hw data))))
     JOY_COL_RIGHT = false).
Proof.
  intros Hok Hhigh Hx Hy.
  pose proof Hok as Hok'. unfold cfg_ok in Hok'.
  apply andb_true_iff in Hok'. destruct Hok' as [Hty _].
  destruct (thresholds_exact cfg Hty) as (_ & _ & Hhon & Hhoff).
  pose proof (cfg_typed_thresholds cfg Hty) as Hr.
  rewrite (adc_read_raw_ok _ 0 Hx). cbn [snd].
  assert (Hs : int16 (buffer_word (adc_x hw)) <= 32767).
  { unfold int16, wrap_signed.
    change (2 ^ (16 - 1)) with 32768. change (2 ^ 16) with 65536.
    pose proof (Z.mod_pos_bound (buffer_word (adc_x hw) + 32768) 65536).
    lia. }
  assert (Hq : axis_from_sample (int16 (buffer_word (adc_x hw)))
                 (axis_x data) cfg <> 1).
  { unfold axis_from_sample. rewrite Hhon, Hhoff, !Z.gtb_ltb.
    repeat match goal with
      | |- context [?a <? ?b] => destruct (Z.ltb_spec a b); try lia
      end. }
  split; [exact Hq |]. intros Hinv.
  destruct (scan_stored_axes cfg hw data Hx Hy) as [Hax _].
  unfold apply_invert in Hax. rewrite Hinv in Hax.
  split; [rewrite Hax; exact Hq |].
  destruct (column_state_mask_directions cfg hw
              (axis_x (snd (fst (kscan_adc_joystick_scan cfg hw data))))
              (axis_y (snd (fst (kscan_adc_joystick_scan cfg hw data)))) Hok)
    as (_ & _ & _ & Hright).
  assert (Hmask : state_mask (snd (fst (kscan_adc_joystick_scan cfg hw data)))
                  = column_state_mask cfg hw
                      (axis_x (snd (fst (kscan_adc_joystick_scan cfg hw data))))
                      (axis_y (snd (fst (kscan_adc_joystick_scan cfg hw data))))).
  { rewrite (scan_success cfg hw data Hx Hy). reflexivity. }
  rewrite Hmask, Hright, Hax. rewrite Z.gtb_ltb. apply Z.ltb_ge.
  destruct (axis_from_sample_range cfg (int16 (buffer_word (adc_x hw)))
              (axis_x data)) as [H | [H | H]];
    unfold AXIS_NEGATIVE, AXIS_NEUTRAL, AXIS_POSITIVE in H;
    [rewrite H; lia | rewrite H; lia | contradiction].
Qed.

Lemma scan_never_positive_above_int16_witness :
  let cfg := mk_config 2 4 10 33000 200 50 false false in
  let hw := hw_example (adc_ok 32767) (adc_ok 0) 0 0 in
  axis_from_sample (snd (adc_read_raw (adc_x hw) 0)) (axis_x init_data) cfg
  <> AXIS_POSITIVE /\
  (invert_x cfg = false ->
   axis_x (snd (fst (kscan_adc_joystick_scan cfg hw init_data)))
   <> AXIS_POSITIVE /\
   Z.testbit
     (state_mask (snd (fst (kscan_adc_joystick_scan cfg hw init_data))))
     JOY_COL_RIGHT = false).
Proof.
  apply (scan_never_positive_above_int16
           (mk_config 2 4 10 33000 200 50 false false)
           (hw_example (adc_ok 32767) (adc_ok 0) 0 0) init_data).
  - reflexivity.
  - cbn. lia.
  - reflexivity.
  - reflexivity.
Defined.
